(** * fohlcv: a shallow embedding of the TOHLCV downloader and its properties

    The development follows the layout of the Python package.

    The libraries the package stands on:
    - [Py]        Python strings (sequences of code points) and the few
                  [str] and [re] operations the package calls;
    - [Calendar]  the proleptic Gregorian calendar of [datetime];
    - [Pandas]    series and frames, as far as the package inspects them;
    - [Pathlib]   pure paths and a small file system;
    - [World], [M]  what a run can touch (the provider, the disk, the
                  console) and the computations over it.

    The package, one module per source file:
    [Utils], [Io], [Validate], [Yahoo], [Cli].

    The vocabulary of the specification: [Spec], [ValidateSpec],
    [YahooSpec], [CalendarSpec], [CliSpec]; and sample data in [Sample].

    Definitions come first; the lemmas and the main theorems follow, the
    theorem of each claim under a heading with its number. *)

From Stdlib Require Import ZArith NArith List Bool Lia String Ascii Sorted.
From stdpp Require Import base option list.

Import ListNotations.
Local Open Scope Z_scope.

(* ===================================================================== *)
(** * Python strings *)
(* ===================================================================== *)

Module Py.

Local Open Scope N_scope.

(** A Python [str] is a sequence of Unicode code points. *)
Definition char := N.
Definition str := list char.

(** ASCII literals. *)
Definition lit (s : string) : str := map N_of_ascii (list_ascii_of_string s).

Definition in_range (lo hi c : char) : bool := (lo <=? c) && (c <=? hi).

Definition is_upper (c : char) : bool := in_range 65 90 c.
Definition is_lower (c : char) : bool := in_range 97 122 c.
Definition is_digit (c : char) : bool := in_range 48 57 c.

(** The character class [[A-Za-z0-9]] and its complement [[^A-Za-z0-9]]. *)
Definition is_alnum (c : char) : bool := is_upper c || is_lower c || is_digit c.
Definition non_alnum (c : char) : bool := negb (is_alnum c).

Definition underscore : char := 95.
Definition is_underscore (c : char) : bool := (c =? underscore).

(** [str.isspace] on one code point: the characters [str.strip()] removes. *)
Definition isspace (c : char) : bool :=
  in_range 9 13 c || in_range 28 32 c || (c =? 133) || (c =? 160)
  || (c =? 5760) || in_range 8192 8202 c || (c =? 8232) || (c =? 8233)
  || (c =? 8239) || (c =? 8287) || (c =? 12288).

Fixpoint lstrip (p : char -> bool) (s : str) : str :=
  match s with
  | [] => []
  | c :: s' => if p c then lstrip p s' else s
  end.

Definition rstrip (p : char -> bool) (s : str) : str := rev (lstrip p (rev s)).

(** [s.strip()] is [strip isspace s]; [s.strip("_")] is [strip is_underscore s]. *)
Definition strip (p : char -> bool) (s : str) : str := rstrip p (lstrip p s).

(** [re.sub(r"[cls]+", repl, s)]: scanning from the left, every match of
    the greedy pattern is a maximal run of class characters and is
    replaced by [repl]; the other characters are copied. *)
Fixpoint re_sub_plus (cls : char -> bool) (repl : str) (s : str) : str :=
  match s with
  | [] => []
  | c :: s' =>
      if cls c
      then repl ++
           (fix skip (t : str) : str :=
              match t with
              | [] => []
              | d :: t' => if cls d then skip t' else d :: re_sub_plus cls repl t'
              end) s'
      else c :: re_sub_plus cls repl s'
  end.

(** [str.lower] on one code point.  Only two code points outside ASCII
    lower-case to something that contains an ASCII character: the Kelvin
    sign (to [k]) and the dotted capital I (to [i] and a combining dot).
    The other code points outside ASCII are left as they are: their lower
    case is outside ASCII too, and the package only compares with the
    ASCII strings [.parquet] and [.csv]. *)
Definition lower_char (c : char) : str :=
  if is_upper c then [c + 32]
  else if (c =? 8490) then [107]
  else if (c =? 304) then [105; 775]
  else [c].

Definition lower (s : str) : str := flat_map lower_char s.

Definition eqb (a b : str) : bool := bool_decide (a = b).

(** Truthiness of a string: [not s] holds of the empty string only. *)
Definition truthy (s : str) : bool := negb (eqb s []).

End Py.

Abbreviation pystr := Py.str.
Notation "'py' s" := (Py.lit s%string) (at level 9, s at level 0, only parsing).

(* ===================================================================== *)
(** * src/fohlcv/utils.py *)
(* ===================================================================== *)

Module Utils.

(** [is_blank(s)]: [s is None or not str(s).strip()]. *)
Definition is_blank (s : option pystr) : bool :=
  match s with
  | None => true
  | Some s => negb (Py.truthy (Py.strip Py.isspace s))
  end.

End Utils.

(* ===================================================================== *)
(** * Errors *)
(* ===================================================================== *)

(** The text of every exception the package raises is an f-string over a
    fixed template; [msg] keeps the template and its arguments. *)
Inductive msg :=
  | MissingColumns (missing : list pystr)   (* "Faltan columnas: {missing}" *)
  | EmptyFrame                              (* "DataFrame vacío" *)
  | NaNInTime                               (* "Hay NaNs en time" *)
  | DuplicateTimestamps (dup : nat)         (* "Hay {dup} timestamps duplicados" *)
  | NotAscending                            (* "time no está ordenado ascendente" *)
  | AllNaN (c : pystr)                      (* "Columna {c} viene toda NaN" *)
  | EmptyTicker                             (* "ticker vacío" *)
  | NoData (ticker interval : pystr)        (* "Yahoo no devolvió datos para ..." *)
  | UnsupportedExtension (suffix : pystr)   (* "Extensión no soportada: {suffix}" *)
  | NaTHasNoDate.                           (* NaT.date() *)

Inductive exn :=
  | ValueError (m : msg)
  | RuntimeError (m : msg)
  | OverflowError          (* datetime arithmetic: "date value out of range" *)
  | KeyError (k : pystr)   (* df[c] on a missing column *)
  | IndexError             (* iloc or [0] out of bounds *)
  | TypeError              (* tz_localize on an aware index, tz_convert on a naive one *)
  | OSError.               (* mkdir or open refused by the file system *)

Inductive result (A : Type) :=
  | Ok (a : A)
  | Raise (e : exn).
Arguments Ok {A} a.
Arguments Raise {A} e.

Definition is_ok {A} (r : result A) : bool :=
  match r with Ok _ => true | Raise _ => false end.

(* ===================================================================== *)
(** * The calendar of [datetime] *)
(* ===================================================================== *)

(** Dates as the standard library of Python computes with them: the
    underscore names are the helpers of its [datetime] module. *)

Module Calendar.

Record date := mkdate { year : Z; month : Z; day : Z }.

Definition date_eqb (a b : date) : bool :=
  (year a =? year b) && (month a =? month b) && (day a =? day b).

Definition MINYEAR : Z := 1.
Definition MAXYEAR : Z := 9999.
Definition _MAXORDINAL : Z := 3652059.

(** [_is_leap]. *)
Definition _is_leap (y : Z) : bool :=
  (y mod 4 =? 0) && (negb (y mod 100 =? 0) || (y mod 400 =? 0)).

(** [_DAYS_IN_MONTH] and [_DAYS_BEFORE_MONTH], indexed from 1. *)
Definition _DAYS_IN_MONTH : list Z := [-1; 31; 28; 31; 30; 31; 30; 31; 31; 30; 31; 30; 31].
Definition _DAYS_BEFORE_MONTH : list Z :=
  [-1; 0; 31; 59; 90; 120; 151; 181; 212; 243; 273; 304; 334].

Definition tbl (t : list Z) (m : Z) : Z := nth (Z.to_nat m) t (-1).

Definition _days_in_month (y m : Z) : Z :=
  if (m =? 2) && _is_leap y then 29 else tbl _DAYS_IN_MONTH m.

Definition _days_before_year (y : Z) : Z :=
  let y := y - 1 in y * 365 + y / 4 - y / 100 + y / 400.

Definition _days_before_month (y m : Z) : Z :=
  tbl _DAYS_BEFORE_MONTH m + (if (2 <? m) && _is_leap y then 1 else 0).

(** [_check_date_fields]: what the [datetime(y, m, d)] constructor accepts. *)
Definition valid (d : date) : bool :=
  (MINYEAR <=? year d) && (year d <=? MAXYEAR)
  && (1 <=? month d) && (month d <=? 12)
  && (1 <=? day d) && (day d <=? _days_in_month (year d) (month d)).

(** [datetime(y, m, d)]; [None] stands for the [ValueError] it raises. *)
Definition mk (y m d : Z) : option date :=
  let x := mkdate y m d in if valid x then Some x else None.

(** [_ymd2ord]: 0001-01-01 is day 1. *)
Definition _ymd2ord (d : date) : Z :=
  _days_before_year (year d) + _days_before_month (year d) (month d) + day d.

Definition _DI400Y : Z := 146097.
Definition _DI100Y : Z := 36524.
Definition _DI4Y : Z := 1461.

(** The tail of [_ord2ymd]: month and day of the day numbered [n] (from 0)
    within a year, estimated by [(n + 50) >> 5] and corrected by one. *)
Definition _month_day (leapyear : bool) (n : Z) : Z * Z :=
  let m := Z.shiftr (n + 50) 5 in
  let preceding :=
    tbl _DAYS_BEFORE_MONTH m + (if (2 <? m) && leapyear then 1 else 0) in
  if n <? preceding then
    let m := m - 1 in
    let preceding :=
      preceding
      - (tbl _DAYS_IN_MONTH m + (if (m =? 2) && leapyear then 1 else 0)) in
    (m, n - preceding + 1)
  else (m, n - preceding + 1).

(** [_ord2ymd]. *)
Definition _ord2ymd (n : Z) : date :=
  let n := n - 1 in
  let n400 := n / _DI400Y in
  let n := n mod _DI400Y in
  let y := n400 * 400 + 1 in
  let n100 := n / _DI100Y in
  let n := n mod _DI100Y in
  let n4 := n / _DI4Y in
  let n := n mod _DI4Y in
  let n1 := n / 365 in
  let n := n mod 365 in
  let y := y + n100 * 100 + n4 * 4 + n1 in
  if (n1 =? 4) || (n100 =? 4) then mkdate (y - 1) 12 31
  else
    let leapyear := (n1 =? 3) && (negb (n4 =? 24) || (n100 =? 3)) in
    let md := _month_day leapyear n in
    mkdate y (fst md) (snd md).

(** [d + timedelta(days=k)] on a midnight datetime: through the ordinal,
    with [OverflowError] outside [1 .. _MAXORDINAL]. *)
Definition add_days (d : date) (k : Z) : result date :=
  let n := _ymd2ord d + k in
  if (0 <? n) && (n <=? _MAXORDINAL) then Ok (_ord2ymd n) else Raise OverflowError.

(** The day after [d] read off the calendar: the specification of
    "plus one day". *)
Definition next_day (d : date) : date :=
  if day d <? _days_in_month (year d) (month d) then mkdate (year d) (month d) (day d + 1)
  else if month d <? 12 then mkdate (year d) (month d + 1) 1
  else mkdate (year d + 1) 1 1.

Definition last_day : date := mkdate 9999 12 31.

(** A [datetime]: its date and the time of day in microseconds (the
    time zone plays no part here). *)
Record datetime := mkdatetime { dt_date : date; dt_micros : Z }.

(** Decimal digits, zero padded to [w] places. *)
Fixpoint digits (w : nat) (n : Z) : pystr :=
  match w with
  | O => []
  | S w' => digits w' (n / 10) ++ [Z.to_N (48 + n mod 10)]
  end.

(** [d.strftime("%Y-%m-%d")], which is also [str(d)] for a date. *)
Definition isoformat (d : date) : pystr :=
  digits 4 (year d) ++ py "-" ++ digits 2 (month d) ++ py "-" ++ digits 2 (day d).

(** Epoch day of a timestamp in nanoseconds since 1970-01-01T00:00Z, and
    [Timestamp.date()] for a UTC timestamp. *)
Definition ns_per_day : Z := 86400 * 1000000000.
Definition date_of_ns (ns : Z) : date := _ord2ymd (ns / ns_per_day + 719163).

(** The value of an ASCII digit string. *)
Definition digit_val (c : Py.char) : Z := Z.of_N c - 48.
Definition number (s : pystr) : Z := fold_left (fun acc c => acc * 10 + digit_val c) s 0.

(** The strict [YYYY-MM-DD] fragment of [dateutil.parser.isoparse],
    followed by [.date()]: ten characters, digits around two hyphens, and
    a date the [datetime] constructor accepts. *)
Definition isoparse_ymd (s : pystr) : option date :=
  match s with
  | [y1; y2; y3; y4; h1; m1; m2; h2; d1; d2] =>
      if forallb Py.is_digit [y1; y2; y3; y4; m1; m2; d1; d2]
         && (h1 =? 45)%N && (h2 =? 45)%N
      then mk (number [y1; y2; y3; y4]) (number [m1; m2]) (number [d1; d2])
      else None
  | _ => None
  end.

End Calendar.

(* ===================================================================== *)
(** * Series and frames *)
(* ===================================================================== *)

Module Pandas.

Definition UTC : pystr := py "UTC".

(** A column or an index.  [values] holds one entry per row, [None] for a
    missing one (NaN, NaT or None); a number stands for a price, a volume
    or the nanoseconds of a timestamp: the package moves the values around
    and tests whether they are missing, it never computes with them.
    [tz] is the time zone of the dtype: [None] for a naive datetime (and
    for every column that is not a datetime). *)
Record Series := mkSeries { tz : option pystr; values : list (option Z) }.

(** A frame with a flat column index, in column order; the labels of a
    frame are distinct. *)
Record DataFrame := mkFrame { index : Series; columns : list (pystr * Series) }.

(** What the provider hands back: the columns are a flat index or a
    two-level [MultiIndex] of (price field, ticker) pairs. *)
Inductive Columns :=
  | Index (cols : list (pystr * Series))
  | MultiIndex (cols : list ((pystr * pystr) * Series)).

Record RawFrame := mkRaw { raw_index : Series; raw_columns : Columns }.

Definition len (s : Series) : nat := length (values s).

Definition ncols (c : Columns) : nat :=
  match c with Index cs => length cs | MultiIndex cs => length cs end.

(** [df.empty]: some axis has length 0. *)
Definition empty (df : DataFrame) : bool :=
  (len (index df) =? 0)%nat || (length (columns df) =? 0)%nat.

Definition raw_empty (df : RawFrame) : bool :=
  (len (raw_index df) =? 0)%nat || (ncols (raw_columns df) =? 0)%nat.

(** [cols.get(c)]: the first column carrying the label. *)
Fixpoint get (cols : list (pystr * Series)) (c : pystr) : option Series :=
  match cols with
  | [] => None
  | (k, s) :: cols' => if Py.eqb k c then Some s else get cols' c
  end.

(** [c in df.columns]. *)
Definition has_column (df : DataFrame) (c : pystr) : bool :=
  existsb (fun kv => Py.eqb (fst kv) c) (columns df).

(** [df[c]]. *)
Definition getitem (df : DataFrame) (c : pystr) : result Series :=
  match get (columns df) c with
  | Some s => Ok s
  | None => Raise (KeyError c)
  end.

(** [s.isna()], [.any()], [.all()], [.sum()] on boolean vectors. *)
Definition isna (s : Series) : list bool :=
  map (fun v => match v with None => true | Some _ => false end) (values s).
Definition any (l : list bool) : bool := existsb id l.
Definition all (l : list bool) : bool := forallb id l.
Definition sum (l : list bool) : nat := length (List.filter id l).

(** [s.duplicated()]: marks every row whose value already occurred in an
    earlier row. *)
Fixpoint duplicated_from (seen : list (option Z)) (l : list (option Z)) : list bool :=
  match l with
  | [] => []
  | v :: l' => bool_decide (v ∈ seen) :: duplicated_from (v :: seen) l'
  end.
Definition duplicated (s : Series) : list bool := duplicated_from [] (values s).

(** [s.is_monotonic_increasing]: non-decreasing, and false as soon as a
    value is missing. *)
Fixpoint monotonic (l : list (option Z)) : bool :=
  match l with
  | [] => true
  | None :: _ => false
  | Some a :: t =>
      match t with
      | [] => true
      | None :: _ => false
      | Some b :: _ => (a <=? b) && monotonic t
      end
  end.
Definition is_monotonic_increasing (s : Series) : bool := monotonic (values s).

(** [s.iloc[0]] and [s.iloc[-1]]. *)
Definition iloc_first (s : Series) : result (option Z) :=
  match values s with
  | [] => Raise IndexError
  | v :: _ => Ok v
  end.
Definition iloc_last (s : Series) : result (option Z) :=
  match rev (values s) with
  | [] => Raise IndexError
  | v :: _ => Ok v
  end.

(** [idx.tz_localize("UTC")] refuses an aware index and
    [idx.tz_convert("UTC")] a naive one (both with a [TypeError]); the
    stored numbers stay as they are: wall-clock readings are taken as UTC
    readings, instants stay the same instants. *)
Definition tz_localize_utc (idx : Series) : result Series :=
  match tz idx with
  | None => Ok (mkSeries (Some UTC) (values idx))
  | Some _ => Raise TypeError
  end.
Definition tz_convert_utc (idx : Series) : result Series :=
  match tz idx with
  | Some _ => Ok (mkSeries (Some UTC) (values idx))
  | None => Raise TypeError
  end.

(** [df.xs(key, axis=1, level=-1)]: the columns whose last level is [key],
    labelled by the remaining level. *)
Definition xs (cols : list ((pystr * pystr) * Series)) (key : pystr)
  : list (pystr * Series) :=
  map (fun kv => (fst (fst kv), snd kv))
      (List.filter (fun kv => Py.eqb (snd (fst kv)) key) cols).

(** [df.columns.get_level_values(-1)]. *)
Definition get_level_values_last (cols : list ((pystr * pystr) * Series)) : list pystr :=
  map (fun kv => snd (fst kv)) cols.

(** [df.rename(columns=mapping)]. *)
Definition rename_label (mapping : list (pystr * pystr)) (k : pystr) : pystr :=
  match List.find (fun kv => Py.eqb (fst kv) k) mapping with
  | Some kv => snd kv
  | None => k
  end.
Definition rename (mapping : list (pystr * pystr)) (cols : list (pystr * Series))
  : list (pystr * Series) :=
  map (fun kv => (rename_label mapping (fst kv), snd kv)) cols.

(** A dictionary entry of the [pd.DataFrame({...})] constructor that is
    [None] becomes a column of missing values. *)
Definition column_or_none (n : nat) (s : option Series) : Series :=
  match s with
  | Some s => s
  | None => mkSeries None (repeat None n)
  end.

(** [pd.to_numeric(s, errors="coerce")]: numbers stay, the rest is NaN. *)
Definition to_numeric (s : Series) : Series :=
  mkSeries None (map (fun v => match v with Some x => Some x | None => None end) (values s)).

(** The order [sort_values] uses: ascending, missing values last. *)
Definition key_le (a b : option Z) : bool :=
  match a, b with
  | Some x, Some y => x <=? y
  | _, None => true
  | None, Some _ => false
  end.

Fixpoint insert_row (k : option Z) (i : nat) (l : list (option Z * nat))
  : list (option Z * nat) :=
  match l with
  | [] => [(k, i)]
  | (k', i') :: l' =>
      if key_le k' k then (k', i') :: insert_row k i l' else (k, i) :: l
  end.

(** [argsort]: the row numbers in sorted order of their keys.  Pandas
    promises no order among rows with equal keys; here they keep
    theirs. *)
Definition argsort (keys : list (option Z)) : list nat :=
  map snd (fold_left (fun acc ki => insert_row (fst ki) (snd ki) acc)
                     (combine keys (seq 0 (length keys))) []).

Definition take (perm : list nat) (s : Series) : Series :=
  mkSeries (tz s) (map (fun i => nth i (values s) None) perm).

Definition RangeIndex (n : nat) : Series :=
  mkSeries None (map (fun i => Some (Z.of_nat i)) (seq 0 n)).

(** [df.sort_values(by).reset_index(drop=True)]. *)
Definition sort_values_reset (df : DataFrame) (by_ : pystr) : result DataFrame :=
  match get (columns df) by_ with
  | None => Raise (KeyError by_)
  | Some k =>
      let perm := argsort (values k) in
      Ok (mkFrame (RangeIndex (len (index df)))
                  (map (fun kv => (fst kv, take perm (snd kv))) (columns df)))
  end.

End Pandas.

(* ===================================================================== *)
(** * Paths and the file system *)
(* ===================================================================== *)

Module Pathlib.

(** A path is the list of its components. *)
Definition Path := list pystr.

(** The separators of a Windows path. *)
Definition is_sep (c : Py.char) : bool := ((c =? 47) || (c =? 92))%N.

Fixpoint split_on (p : Py.char -> bool) (s : pystr) : list pystr :=
  match s with
  | [] => [[]]
  | c :: s' =>
      if p c then [] :: split_on p s'
      else match split_on p s' with
           | w :: ws => (c :: w) :: ws
           | [] => [[c]]
           end
  end.

(** The components of a relative segment: empty components and [.] are
    dropped. *)
Definition segment_parts (s : pystr) : list pystr :=
  List.filter (fun w => negb (Py.eqb w [] || Py.eqb w (py ".")))
              (split_on is_sep s).

(** [p / s] for a segment [s] that does not start with an anchor; every
    segment this package joins starts with a sanitised token or is a
    literal. *)
Definition div (p : Path) (s : pystr) : Path := p ++ segment_parts s.

Definition parent (p : Path) : Path := List.removelast p.
Definition name (p : Path) : pystr := List.last p [].

(** [name.rfind(".")]. *)
Fixpoint rfind (c : Py.char) (s : pystr) : option nat :=
  match s with
  | [] => None
  | x :: s' =>
      match rfind c s' with
      | Some i => Some (S i)
      | None => if (x =? c)%N then Some O else None
      end
  end.

(** [path.suffix]: from the last dot of the final component, unless that
    dot is its first or its last character. *)
Definition suffix (p : Path) : pystr :=
  let n := name p in
  match rfind 46%N n with
  | Some i => if (0 <? i)%nat && (i <? length n - 1)%nat then drop i n else []
  | None => []
  end.

(** [Path(s)]: the components of [s]; a drive, when there is one, is the
    first of them. *)
Definition of_str (s : pystr) : Path := segment_parts s.

(** A path that starts at a root or at a drive letter. *)
Definition is_absolute (s : pystr) : bool :=
  match s with
  | c :: rest =>
      is_sep c
      || ((Py.is_upper c || Py.is_lower c)
          && match rest with d :: _ => (d =? 58)%N | [] => false end)
  | [] => false
  end.

(** [Path(s).resolve()] against the working directory (links and [..]
    are left alone). *)
Definition resolve (cwd : Path) (s : pystr) : Path :=
  if is_absolute s then of_str s else cwd ++ of_str s.

Inductive FileFormat := Parquet | Csv.

(** A written file: its format and the columns ([index=False]). *)
Record File := mkFile { format : FileFormat; content : list (pystr * Pandas.Series) }.

(** The file system: the directories there are, and the regular files
    with what they hold (the first entry of a path counts). *)
Record FS := mkFS { dirs : list Path; files : list (Path * File) }.

Definition path_eqb (a b : Path) : bool := bool_decide (a = b).

(** The non-empty prefixes of a path, shortest first. *)
Fixpoint prefixes (p : Path) : list Path :=
  match p with
  | [] => []
  | c :: p' => [c] :: map (cons c) (prefixes p')
  end.

Definition read (fs : FS) (p : Path) : option File :=
  match List.find (fun kv => path_eqb (fst kv) p) (files fs) with
  | Some kv => Some (snd kv)
  | None => None
  end.

Definition is_file (fs : FS) (p : Path) : bool :=
  match read fs p with Some _ => true | None => false end.
Definition is_dir (fs : FS) (p : Path) : bool := existsb (path_eqb p) (dirs fs).

(** [p.mkdir(parents=True, exist_ok=True)]: every missing ancestor and [p]
    itself become directories; a regular file on the way is an error. *)
Definition mkdir_p (fs : FS) (p : Path) : result FS :=
  if existsb (is_file fs) (prefixes p) then Raise OSError
  else Ok (mkFS (List.filter (fun q => negb (is_dir fs q)) (prefixes p) ++ dirs fs)
                (files fs)).

(** The anchor is always there. *)
Definition exists_dir (fs : FS) (p : Path) : bool :=
  match p with
  | [] => true
  | _ :: _ => is_dir fs p
  end.

(** Opening [p] for writing and storing [f]: [p] must not be a directory
    and its parent must be one. *)
Definition write (fs : FS) (p : Path) (f : File) : result FS :=
  if is_dir fs p || negb (exists_dir fs (parent p)) then Raise OSError
  else Ok (mkFS (dirs fs) ((p, f) :: files fs)).

End Pathlib.

(* ===================================================================== *)
(** * The world the program runs in *)
(* ===================================================================== *)

(** One call of [yf.download]. *)
Inductive Window :=
  | StartEnd (start end_ : option pystr)
  | Period (period : pystr).

Record Request := mkRequest {
  r_tickers : pystr;
  r_interval : pystr;
  r_window : Window;
  r_auto_adjust : bool;
  r_prepost : bool;
  r_timeout : Z
}.

(** What the program prints. *)
Inductive Event :=
  | PrintWarn (w : pystr)
  | PrintError (e : exn) (single_day_hint : bool)
  | PrintTable (ticker interval : pystr) (rows : nat) (from_ to_ : option Z)
  | PrintSaved (p : Pathlib.Path).

Record World := mkWorld {
  requests : list Request;     (* the downloads asked for so far, latest first *)
  fs : Pathlib.FS;
  console : list Event         (* latest first *)
}.

(** Computations that read and change the world and may raise. *)
Definition M (A : Type) : Type := World -> result A * World.

Definition ret {A} (a : A) : M A := fun w => (Ok a, w).
Definition raise {A} (e : exn) : M A := fun w => (Raise e, w).
Definition bind {A B} (c : M A) (k : A -> M B) : M B :=
  fun w => match c w with
           | (Ok a, w') => k a w'
           | (Raise e, w') => (Raise e, w')
           end.
Definition lift {A} (r : result A) : M A := fun w => (r, w).

(** [try: c except Exception as e: h e]. *)
Definition try_except {A} (c : M A) (h : exn -> M A) : M A :=
  fun w => match c w with
           | (Ok a, w') => (Ok a, w')
           | (Raise e, w') => h e w'
           end.

Notation "'let*' x ':=' c 'in' k" := (bind c (fun x => k))
  (at level 10, x name, c at level 100, k at level 200).
Notation "c ';;' k" := (bind c (fun _ => k))
  (at level 100, k at level 200, right associativity).

Definition print (e : Event) : M unit :=
  fun w => (Ok tt, mkWorld (requests w) (fs w) (e :: console w)).

Definition mkdir_p (p : Pathlib.Path) : M unit :=
  fun w => match Pathlib.mkdir_p (fs w) p with
           | Ok fs' => (Ok tt, mkWorld (requests w) fs' (console w))
           | Raise e => (Raise e, w)
           end.

Definition write_file (p : Pathlib.Path) (f : Pathlib.File) : M unit :=
  fun w => match Pathlib.write (fs w) p f with
           | Ok fs' => (Ok tt, mkWorld (requests w) fs' (console w))
           | Raise e => (Raise e, w)
           end.

(* ===================================================================== *)
(** * src/fohlcv/io.py *)
(* ===================================================================== *)

Module Io.

(** [FIXED_DATA_ROOT]. *)
Definition FIXED_DATA_ROOT : Pathlib.Path :=
  Pathlib.of_str
    (py "C:\Users\axier\Desktop\CARPETA PROGRAMACION\quant_trading_system\data").

(** [_sanitize_token(s)]:
    [s = str(s).strip()],
    [s = re.sub(r"[^A-Za-z0-9]+", "_", s)],
    [s = re.sub(r"_+", "_", s).strip("_")],
    [return s or "NA"]. *)
Definition _sanitize_token (s : pystr) : pystr :=
  let s1 := Py.strip Py.isspace s in
  let s2 := Py.re_sub_plus Py.non_alnum (py "_") s1 in
  let s3 := Py.strip Py.is_underscore (Py.re_sub_plus Py.is_underscore (py "_") s2) in
  if Py.truthy s3 then s3 else py "NA".

(** [build_outpath_fixed(ticker, interval, start_tag, end_tag, ext, data_root)]. *)
Definition build_outpath_fixed (ticker interval start_tag end_tag ext : pystr)
    (data_root : Pathlib.Path) : M Pathlib.Path :=
  let safe_ticker := _sanitize_token ticker in
  let safe_interval := _sanitize_token interval in
  let safe_start := _sanitize_token start_tag in
  let safe_end := _sanitize_token end_tag in
  let folder :=
    Pathlib.div (Pathlib.div (Pathlib.div data_root safe_ticker) (py "tohlcv")) safe_interval in
  mkdir_p folder ;;
  let filename := safe_start ++ py "_" ++ safe_end ++ ext in
  ret (Pathlib.div folder filename).

(** [save_df(df, path)]. *)
Definition save_df (df : Pandas.DataFrame) (path : Pathlib.Path) : M unit :=
  mkdir_p (Pathlib.parent path) ;;
  if Py.eqb (Py.lower (Pathlib.suffix path)) (py ".parquet") then
    write_file path (Pathlib.mkFile Pathlib.Parquet (Pandas.columns df))
  else if Py.eqb (Py.lower (Pathlib.suffix path)) (py ".csv") then
    write_file path (Pathlib.mkFile Pathlib.Csv (Pandas.columns df))
  else
    raise (ValueError (UnsupportedExtension (Pathlib.suffix path))).

End Io.

(* ===================================================================== *)
(** * src/fohlcv/validate.py *)
(* ===================================================================== *)

Module Validate.

Import Pandas.

Definition REQUIRED_COLS : list pystr :=
  [py "time"; py "open"; py "high"; py "low"; py "close"; py "volume"].

(** The frame is an object the function could change: a computation over
    it returns its result together with the frame it leaves behind. *)
Definition F (A : Type) : Type := DataFrame -> result A * DataFrame.

Definition fret {A} (a : A) : F A := fun df => (Ok a, df).
Definition fraise {A} (e : exn) : F A := fun df => (Raise e, df).
Definition fbind {A B} (c : F A) (k : A -> F B) : F B :=
  fun df => match c df with
            | (Ok a, df') => k a df'
            | (Raise e, df') => (Raise e, df')
            end.
(** Reading the frame. *)
Definition look {A} (f : DataFrame -> result A) : F A := fun df => (f df, df).

(** [if cond: raise e]. *)
Definition raise_if (cond : bool) (e : exn) : F unit :=
  if cond then fraise e else fret tt.

(** [for c in cs: body c]. *)
Fixpoint for_each {A} (cs : list A) (body : A -> F unit) : F unit :=
  match cs with
  | [] => fret tt
  | c :: cs' => fbind (body c) (fun _ => for_each cs' body)
  end.

Notation "'let+' x ':=' c 'in' k" := (fbind c (fun x => k))
  (at level 10, x name, c at level 100, k at level 200).
Notation "c ';+' k" := (fbind c (fun _ => k))
  (at level 100, k at level 200, right associativity).

(** [validate_tohlcv(df)]. *)
Definition validate_tohlcv : F unit :=
  let+ missing :=
    look (fun df => Ok (List.filter (fun c => negb (has_column df c)) REQUIRED_COLS)) in
  raise_if (negb (length missing =? 0)%nat) (ValueError (MissingColumns missing)) ;+
  let+ is_empty := look (fun df => Ok (empty df)) in
  raise_if is_empty (ValueError EmptyFrame) ;+
  let+ time := look (fun df => getitem df (py "time")) in
  raise_if (any (isna time)) (ValueError NaNInTime) ;+
  let+ time := look (fun df => getitem df (py "time")) in
  let dup := sum (duplicated time) in
  raise_if (negb (dup =? 0)%nat) (ValueError (DuplicateTimestamps dup)) ;+
  let+ time := look (fun df => getitem df (py "time")) in
  raise_if (negb (is_monotonic_increasing time)) (ValueError NotAscending) ;+
  for_each [py "open"; py "high"; py "low"; py "close"] (fun c =>
    let+ col := look (fun df => getitem df c) in
    raise_if (all (isna col)) (ValueError (AllNaN c))).

End Validate.

(* ===================================================================== *)
(** * src/fohlcv/yahoo.py *)
(* ===================================================================== *)

Module Yahoo.

Import Pandas.

Section Provider.

(** [yf.download]: what the provider answers to a request; [None] is the
    Python [None]. *)
Variable provider : Request -> option RawFrame.

Definition yf_download (r : Request) : M (option RawFrame) :=
  fun w => (Ok (provider r), mkWorld (r :: requests w) (fs w) (console w)).

Definition RENAME : list (pystr * pystr) :=
  [ (py "Open", py "open"); (py "High", py "high"); (py "Low", py "low");
    (py "Close", py "close"); (py "Adj Close", py "adj_close");
    (py "Volume", py "volume") ].

(** The [MultiIndex] block: keep the requested ticker when the provider
    sent it, else the first ticker there is. *)
Definition flatten_columns (ticker : pystr) (cols : Columns) : result (list (pystr * Series)) :=
  match cols with
  | Index cs => Ok cs
  | MultiIndex cs =>
      if existsb (Py.eqb ticker) (get_level_values_last cs)
      then Ok (xs cs ticker)
      else match get_level_values_last cs with
           | first :: _ => Ok (xs cs first)
           | [] => Raise IndexError
           end
  end.

(** The UTC block: [tz_localize] for a naive index, [tz_convert] for an
    aware one. *)
Definition normalize_utc (idx : Series) : result Series :=
  match tz idx with
  | None => tz_localize_utc idx
  | Some _ => tz_convert_utc idx
  end.

(** Everything after the download and the emptiness test. *)
Definition normalize (ticker : pystr) (df : RawFrame) : result DataFrame :=
  match flatten_columns ticker (raw_columns df) with
  | Raise e => Raise e
  | Ok cols =>
      match normalize_utc (raw_index df) with
      | Raise e => Raise e
      | Ok idx =>
          let cols := rename RENAME cols in
          let n := len idx in
          let out :=
            mkFrame idx
              [ (py "time", idx);
                (py "open", column_or_none n (get cols (py "open")));
                (py "high", column_or_none n (get cols (py "high")));
                (py "low", column_or_none n (get cols (py "low")));
                (py "close", column_or_none n (get cols (py "close")));
                (py "volume", to_numeric (column_or_none n (get cols (py "volume")))) ] in
          sort_values_reset out (py "time")
      end
  end.

(** [fetch_tohlcv_yahoo(ticker, interval, start, end, period, auto_adjust,
    prepost, timeout)]. *)
Definition fetch_tohlcv_yahoo (ticker : pystr) (interval : pystr)
    (start end_ period : option pystr) (auto_adjust prepost : bool) (timeout : Z)
  : M DataFrame :=
  let ticker := Py.strip Py.isspace ticker in
  if negb (Py.truthy ticker) then raise (ValueError EmptyTicker)
  else
    let use_start_end :=
      match start, end_ with None, None => false | _, _ => true end in
    let* df :=
      (if use_start_end
       then yf_download (mkRequest ticker interval (StartEnd start end_)
                           auto_adjust prepost timeout)
       else
         let period := match period with None => py "60d" | Some p => p end in
         yf_download (mkRequest ticker interval (Period period)
                        auto_adjust prepost timeout)) in
    match df with
    | None => raise (RuntimeError (NoData ticker interval))
    | Some df =>
        if raw_empty df then raise (RuntimeError (NoData ticker interval))
        else lift (normalize ticker df)
    end.

End Provider.

End Yahoo.

(* ===================================================================== *)
(** * src/fohlcv/cli.py *)
(* ===================================================================== *)

Module Cli.

Import Calendar Pandas.

(** The namespace [argparse] fills. *)
Record Args := mkArgs {
  wizard : bool;
  ticker : option pystr;
  interval : pystr;
  start : option pystr;
  end_ : option pystr;
  period : option pystr;
  auto_adjust : bool;
  prepost : bool;
  out : option pystr;
  format : pystr;
  no_save : bool
}.

(** The dictionary [_wizard()] returns. *)
Record Answers := mkAnswers {
  w_ticker : pystr;
  w_interval : pystr;
  w_start : option pystr;
  w_end : option pystr;
  w_period : option pystr;
  w_format : pystr;
  w_no_save : bool
}.

(** Truthiness of an optional string: [None] and [""] are false. *)
Definition truthy (s : option pystr) : bool :=
  match s with
  | None => false
  | Some s => Py.truthy s
  end.

(** The string of an optional string that is known to be given. *)
Definition given (s : option pystr) : pystr :=
  match s with
  | Some s => s
  | None => []
  end.

(** The warning of [_fix_same_day_range]. *)
Definition same_day_warning (end_ new_end : pystr) : pystr :=
  py "Rango de 1 solo d" ++ [237%N] ++ py "a detectado (start=end=" ++ end_
  ++ py "). En Yahoo 'end' es exclusivo " ++ [8594%N] ++ py " ajusto end a "
  ++ new_end ++ py ".".

(** The parameters a run works with. *)
Record Params := mkParams {
  p_ticker : pystr;
  p_interval : pystr;
  p_start : option pystr;
  p_end : option pystr;
  p_period : option pystr;
  p_format : pystr;
  p_no_save : bool
}.

Section Environment.

(** [dateutil.parser.isoparse]; [None] stands for any exception. *)
Variable isoparse : pystr -> option datetime.

(** [_parse_date_yyyy_mm_dd]: [d = isoparse(s).date()], then
    [datetime(d.year, d.month, d.day)], a datetime at midnight, which is
    kept as its date. *)
Definition _parse_date_yyyy_mm_dd (s : pystr) : option date :=
  match isoparse s with
  | None => None
  | Some dt => let d := dt_date dt in mk (year d) (month d) (day d)
  end.

(** [_fix_same_day_range(start, end)]. *)
Definition _fix_same_day_range (start end_ : option pystr)
  : result (option pystr * option pystr * option pystr) :=
  if negb (truthy start) || negb (truthy end_) then Ok (start, end_, None)
  else
    match start, end_ with
    | Some s, Some e =>
        match _parse_date_yyyy_mm_dd s with
        | None => Ok (start, end_, None)
        | Some ds =>
            match _parse_date_yyyy_mm_dd e with
            | None => Ok (start, end_, None)
            | Some de =>
                if date_eqb ds de then
                  match add_days de 1 with
                  | Raise ex => Raise ex
                  | Ok d' =>
                      let new_end := isoformat d' in
                      Ok (start, Some new_end, Some (same_day_warning e new_end))
                  end
                else Ok (start, end_, None)
            end
        end
    | _, _ => Ok (start, end_, None)
    end.

Variable provider : Request -> option RawFrame.

(** What the interactive [_wizard()] hands back, and the working
    directory [Path.resolve] refers to. *)
Variable answers : Answers.
Variable cwd : Pathlib.Path.

(** [str(t.date())] for a value of the [time] column. *)
Definition date_tag (t : option Z) : result pystr :=
  match t with
  | None => Raise (ValueError NaTHasNoDate)
  | Some ns => Ok (isoformat (date_of_ns ns))
  end.

Definition blank_to_none (s : option pystr) : option pystr :=
  if Utils.is_blank s then None else s.

(** The parameters of a run: from the wizard or from the arguments. *)
Definition params (args : Args) : Params :=
  let use_wizard := wizard args || Utils.is_blank (ticker args) in
  if use_wizard then
    mkParams (w_ticker answers) (w_interval answers) (w_start answers) (w_end answers)
             (w_period answers) (w_format answers) (w_no_save answers)
  else
    let t := given (ticker args) in
    let start := blank_to_none (start args) in
    let end_ := blank_to_none (end_ args) in
    let use_start_end :=
      match start, end_ with None, None => false | _, _ => true end in
    let period := if use_start_end then None else blank_to_none (period args) in
    mkParams t (interval args) start end_ period (format args) (no_save args).

(** The body of the [try]: download and validate. *)
Definition download_and_validate (args : Args) (p : Params)
    (start end_ : option pystr) : M DataFrame :=
  let* df := Yahoo.fetch_tohlcv_yahoo provider (p_ticker p) (p_interval p) start end_
               (p_period p) (auto_adjust args) (prepost args) 30 in
  lift (fst (Validate.validate_tohlcv df)) ;;
  ret df.

(** The tags of the file name when start or end is missing: the dates of
    the first and of the last row, [str(df["time"].iloc[0].date())] and
    [str(df["time"].iloc[-1].date())]. *)
Definition data_tags (df : DataFrame) : M (pystr * pystr) :=
  let* time := lift (getitem df (py "time")) in
  let* t0 := lift (iloc_first time) in
  let* t1 := lift (iloc_last time) in
  let* a := lift (date_tag t0) in
  let* b := lift (date_tag t1) in
  ret (a, b).

(** The [if not no_save:] block. *)
Definition save (args : Args) (p : Params) (start end_ : option pystr)
    (df : DataFrame) : M unit :=
  let* tags :=
    (if truthy start && truthy end_
     then ret (given start, given end_)
     else data_tags df) in
  let '(start_tag, end_tag) := tags in
  let ext := if Py.eqb (p_format p) (py "parquet") then py ".parquet" else py ".csv" in
  let* outpath :=
    (if truthy (out args)
     then ret (Pathlib.resolve cwd (given (out args)))
     else Io.build_outpath_fixed (p_ticker p) (p_interval p) start_tag end_tag ext
            Io.FIXED_DATA_ROOT) in
  Io.save_df df outpath ;;
  print (PrintSaved outpath).

(** [main(argv)], from the parsed arguments on; the result is the exit
    status. *)
Definition main (args : Args) : M Z :=
  let p := params args in
  let* fixed := lift (_fix_same_day_range (p_start p) (p_end p)) in
  let '(start, end_, warn) := fixed in
  (if truthy warn then print (PrintWarn (given warn)) else ret tt) ;;
  let* fetched :=
    try_except
      (let* df := download_and_validate args p start end_ in ret (Some df))
      (fun e => print (PrintError e (truthy start && truthy end_)) ;; ret None) in
  match fetched with
  | None => ret 2
  | Some df =>
      let* time := lift (getitem df (py "time")) in
      let* t0 := lift (iloc_first time) in
      let* t1 := lift (iloc_last time) in
      print (PrintTable (p_ticker p) (p_interval p) (len (index df)) t0 t1) ;;
      (if negb (p_no_save p) then save args p start end_ df else ret tt) ;;
      ret 0
  end.

(** The paths a run reported as saved. *)
Definition saved_paths (w : World) : list Pathlib.Path :=
  flat_map (fun e => match e with PrintSaved p => [p] | _ => [] end) (console w).

End Environment.

(** [isoparse] on the strings of the shape YYYY-MM-DD. *)
Definition isoparse_ymd (s : pystr) : option datetime :=
  match Calendar.isoparse_ymd s with
  | Some d => Some (mkdatetime d 0)
  | None => None
  end.

End Cli.

(** The empty world: nothing asked, nothing on disk, nothing printed. *)
Definition world0 : World := mkWorld [] (Pathlib.mkFS [] []) [].

(* ===================================================================== *)
(** * src/fohlcv/cli.py: the questions of the wizard *)
(* ===================================================================== *)

Module Wizard.

Import Cli.

(** The terminal of [rich.console.Console]: the lines that are still to
    be typed, and what was shown so far, latest first.  A call of
    [console.print] or [console.input] is recorded with the text it was
    given (markup and all). *)
Inductive Shown :=
  | Printed (text : pystr)
  | Asked (prompt : pystr).

Record Terminal := mkTerminal { typed : list pystr; shown : list Shown }.

(** What a question ends with: an answer, or the end of the input, where
    [input] raises [EOFError]. *)
Inductive reply (A : Type) :=
  | Got (a : A)
  | EOFError.
Arguments Got {A} a.
Arguments EOFError {A}.

Definition T (A : Type) : Type := Terminal -> reply A * Terminal.

Definition tret {A} (a : A) : T A := fun t => (Got a, t).
Definition tbind {A B} (c : T A) (k : A -> T B) : T B :=
  fun t => match c t with
           | (Got a, t') => k a t'
           | (EOFError, t') => (EOFError, t')
           end.

Notation "'let!' x ':=' c 'in' k" := (tbind c (fun x => k))
  (at level 10, x name, c at level 100, k at level 200).
Notation "c ';!' k" := (tbind c (fun _ => k))
  (at level 100, k at level 200, right associativity).

(** [console.print(text)]. *)
Definition console_print (text : pystr) : T unit :=
  fun t => (Got tt, mkTerminal (typed t) (Printed text :: shown t)).

(** [console.input(prompt)]: the prompt is shown and the next line is
    read, without its line end. *)
Definition console_input (prompt : pystr) : T pystr :=
  fun t => match typed t with
           | [] => (EOFError, mkTerminal [] (Asked prompt :: shown t))
           | line :: rest => (Got line, mkTerminal rest (Asked prompt :: shown t))
           end.

(** [sep.join(l)]. *)
Definition join (sep : pystr) (l : list pystr) : pystr :=
  match l with
  | [] => []
  | x :: l' => x ++ flat_map (fun y => sep ++ y) l'
  end.

(** [while True: body], where the body ends the loop by returning
    ([Some]) or goes round again ([None]).  Every turn of the loops of
    this module that goes round again has read a line, so as many turns as
    there are lines to read, and one more, are all there can be; the
    result of that last turn going round again is never looked at. *)
Fixpoint while_true {A} (turns : nat) (body : T (option A)) : T A :=
  let! r := body in
  match r with
  | Some a => tret a
  | None =>
      match turns with
      | O => fun t => (EOFError, t)
      | S turns' => while_true turns' body
      end
  end.

Definition ASSET_TYPE_EXAMPLES : list (pystr * list pystr) :=
  [ (py "stock", [py "AAPL"; py "MSFT"; py "TSLA"]);
    (py "etf", [py "SPY"; py "QQQ"; py "IWM"]);
    (py "index",
      [ py "^GSPC"; py "^IXIC"; py "^DJI"; py "^RUT"; py "^VIX";
        py "^STOXX50E"; py "^FTSE"; py "^GDAXI"; py "^FCHI"; py "^IBEX"; py "^SSMI";
        py "000001.SS"; py "399001.SZ"; py "000300.SS"; py "^HSI"; py "^HSCE" ]);
    (py "crypto", [py "BTC-USD"; py "ETH-USD"; py "SOL-USD"]);
    (py "fx", [py "EURUSD=X"; py "GBPUSD=X"; py "USDJPY=X"]);
    (py "commodity", [py "GC=F"; py "CL=F"; py "SI=F"]);
    (py "rate", [py "^TNX"; py "^IRX"; py "^TYX"]) ].

Definition DEFAULT_INTERVAL : pystr := py "1h".

(** [ASSET_TYPE_EXAMPLES.get(asset_type, [])]. *)
Definition examples_of (asset_type : pystr) : list pystr :=
  match List.find (fun kv => Py.eqb (fst kv) asset_type) ASSET_TYPE_EXAMPLES with
  | Some kv => snd kv
  | None => []
  end.

(** [_ask(prompt, default)]. *)
Definition _ask (prompt : pystr) (default : option pystr) : T pystr :=
  match default with
  | None =>
      let! s := console_input (py "[bold]" ++ prompt ++ py "[/bold]: ") in
      tret (Py.strip Py.isspace s)
  | Some d =>
      let! s := console_input (py "[bold]" ++ prompt ++ py "[/bold] [dim](default: "
                               ++ d ++ py ")[/dim]: ") in
      let s := Py.strip Py.isspace s in
      tret (if Py.truthy s then s else d)
  end.

(** The message for a refused answer. *)
Definition invalid_choice (choices_str : pystr) : pystr :=
  py "[red]Opci" ++ [243%N] ++ py "n inv" ++ [225%N] ++ py "lida[/red]. Elige una de: "
  ++ choices_str.

(** One turn of the loop of [_ask_choice]. *)
Definition ask_choice_turn (prompt : pystr) (choices : list pystr) (default : pystr)
  : T (option pystr) :=
  let choices_str := join (py "/") choices in
  let! s := _ask (prompt ++ py " (" ++ choices_str ++ py ")") (Some default) in
  let s := Py.lower (Py.strip Py.isspace s) in
  if existsb (Py.eqb s) choices then tret (Some s)
  else console_print (invalid_choice choices_str) ;! tret None.

(** [_ask_choice(prompt, choices, default)]. *)
Definition _ask_choice (prompt : pystr) (choices : list pystr) (default : pystr)
  : T pystr :=
  fun t => while_true (length (typed t)) (ask_choice_turn prompt choices default) t.

Definition ASSET_TYPES : list pystr :=
  [ py "stock"; py "etf"; py "index"; py "crypto"; py "fx"; py "commodity";
    py "rate"; py "other" ].

(** [s or None]. *)
Definition or_none (s : pystr) : option pystr := if Py.truthy s then Some s else None.

(** [_wizard()]. *)
Definition _wizard : T Answers :=
  console_print ([10%N] ++ py "[bold cyan]WIZARD " ++ [8212%N]
                 ++ py " FOHLCV (Yahoo Finance)[/bold cyan]") ;!
  console_print (py "[dim]Descarga TOHLCV: time, open, high, low, close, volume[/dim]"
                 ++ [10%N]) ;!
  let! asset_type := _ask_choice (py "Tipo de activo") ASSET_TYPES (py "stock") in
  let examples := examples_of asset_type in
  (match examples with
   | [] => tret tt
   | _ :: _ =>
       console_print (py "[dim]Ejemplos (" ++ asset_type ++ py "): "
                      ++ join (py ", ") examples ++ py "[/dim]")
   end) ;!
  let! ticker := _ask (py "Nombre del activo (ticker Yahoo)")
                      (Some (match examples with e :: _ => e | [] => [] end)) in
  let! interval := _ask (py "Intervalo (ej: 1m,5m,15m,1h,1d,1wk,1mo)")
                        (Some DEFAULT_INTERVAL) in
  console_print ([10%N] ++ py "[bold]Periodo[/bold]") ;!
  console_print (py "[dim]Nota: Yahoo trata 'end' como exclusivo. Para un "
                 ++ [250%N] ++ py "nico d" ++ [237%N] ++ py "a usa end = d" ++ [237%N]
                 ++ py "a siguiente.[/dim]") ;!
  let! start := _ask (py "Inicio (YYYY-MM-DD) [vac" ++ [237%N] ++ py "o = usar period]")
                     (Some []) in
  let! end_ := _ask (py "Fin (YYYY-MM-DD) [vac" ++ [237%N] ++ py "o = usar period]")
                    (Some []) in
  let! period :=
    (if negb (Py.truthy start) && negb (Py.truthy end_)
     then let! p := _ask (py "Periodo Yahoo (ej: 5d, 30d, 60d, 1y, max)")
                         (Some (py "60d")) in
          tret (Some p)
     else tret None) in
  let! fmt := _ask_choice (py "Formato de salida") [py "parquet"; py "csv"]
                          (py "parquet") in
  let! autosave := _ask_choice ([191%N] ++ py "Guardar a disco?") [py "y"; py "n"]
                               (py "y") in
  tret (mkAnswers ticker interval (or_none start) (or_none end_) period fmt
                  (negb (Py.eqb autosave (py "y")))).

End Wizard.

(* ===================================================================== *)
(** * Specifications *)
(* ===================================================================== *)

(** What the properties below are stated with: definitions that follow the
    wording of the specification, next to the code they are compared to. *)
Module Spec.

(** Replacing every maximal run of [cls] characters by the single
    character [u], as one pass from the left: [b] tells whether the
    previous character was in the class, and a run shows as [u] where it
    starts. *)
Fixpoint scan (cls : Py.char -> bool) (u : Py.char) (b : bool) (s : pystr) : pystr :=
  match s with
  | [] => []
  | c :: s' => (if cls c then (if b then [] else [u]) else [c]) ++ scan cls u (cls c) s'
  end.

Definition replace_runs (cls : Py.char -> bool) (u : Py.char) (s : pystr) : pystr :=
  scan cls u false s.

Definition last_in (cls : Py.char -> bool) (b : bool) (s : pystr) : bool :=
  match last s with Some c => cls c | None => b end.

(** No two [p] characters in a row. *)
Fixpoint no_adjacent (p : Py.char -> bool) (s : pystr) : bool :=
  match s with
  | [] => true
  | a :: t => match t with
              | [] => true
              | b :: _ => negb (p a && p b) && no_adjacent p t
              end
  end.

Definition starts_in (p : Py.char -> bool) (s : pystr) : bool :=
  match s with c :: _ => p c | [] => false end.

Definition fallback : pystr := py "NA".

(** Runs replaced, underscores stripped. *)
Definition core (s : pystr) : pystr :=
  Py.strip Py.is_underscore (replace_runs Py.non_alnum Py.underscore s).

(** The sanitiser [S] of the specification: every maximal run of
    non-alphanumeric characters becomes one underscore, leading and
    trailing underscores go, and a fixed token stands in when nothing
    alphanumeric remains. *)
Definition S (s : pystr) : pystr :=
  let r := core s in
  if existsb Py.is_alnum r then r else fallback.

(** An ASCII letter, an ASCII digit or the underscore. *)
Definition token_char (c : Py.char) : Prop :=
  (65 <= c <= 90)%N \/ (97 <= c <= 122)%N \/ (48 <= c <= 57)%N \/ c = 95%N.

End Spec.

(** The conditions of the validation pass, as the specification words
    them. *)
Module ValidateSpec.

Import Pandas.

Definition OHLC : list pystr := [py "open"; py "high"; py "low"; py "close"].

(** The values of the [time] column (none when the column is absent). *)
Definition time_values (df : DataFrame) : list (option Z) :=
  match get (columns df) (py "time") with
  | Some s => values s
  | None => []
  end.

Definition column_absent (df : DataFrame) : Prop :=
  exists c, In c Validate.REQUIRED_COLS /\ get (columns df) c = None.

Definition frame_empty (df : DataFrame) : Prop :=
  len (index df) = 0%nat \/ columns df = [].

Definition time_missing (df : DataFrame) : Prop := In None (time_values df).

Definition time_duplicate (df : DataFrame) : Prop := ~ NoDup (time_values df).

(** Ascending order: no timestamp is smaller than the one before it. *)
Definition ascending (l : list (option Z)) : Prop :=
  forall i a b, l !! i = Some (Some a) -> l !! (S i) = Some (Some b) -> a <= b.

Definition time_unordered (df : DataFrame) : Prop := ~ ascending (time_values df).

Definition price_all_missing (df : DataFrame) : Prop :=
  exists c s, In c OHLC /\ get (columns df) c = Some s
              /\ forall v, In v (values s) -> v = None.

Definition invalid (df : DataFrame) : Prop :=
  column_absent df \/ frame_empty df \/ time_missing df \/ time_duplicate df
  \/ time_unordered df \/ price_all_missing df.

(** Strictly ascending timestamps, none missing. *)
Definition strictly_ascending (l : list (option Z)) : Prop :=
  exists ts, l = map Some ts
             /\ forall i a b, ts !! i = Some a -> ts !! (S i) = Some b -> a < b.

(** The checks of [validate_tohlcv] in the order it makes them, as one
    boolean. *)
Definition price_present (df : DataFrame) (c : pystr) : bool :=
  match get (columns df) c with
  | Some col => negb (all (isna col))
  | None => false
  end.

Definition checks (df : DataFrame) : bool :=
  forallb (has_column df) Validate.REQUIRED_COLS
  && negb (empty df)
  && match get (columns df) (py "time") with
     | Some time =>
         negb (any (isna time))
         && (sum (duplicated time) =? 0)%nat
         && is_monotonic_increasing time
     | None => false
     end
  && forallb (price_present df) OHLC.

End ValidateSpec.

(** The download step, as the specification describes it. *)
Module YahooSpec.

Import Pandas.

(** The one request a call makes: by start and end when either is given,
    else by period, sixty days when none is named. *)
Definition request_for (ticker interval : pystr) (start end_ period : option pystr)
    (auto_adjust prepost : bool) (timeout : Z) : Request :=
  mkRequest ticker interval
    (match start, end_ with
     | None, None => Period (match period with Some p => p | None => py "60d" end)
     | _, _ => StartEnd start end_
     end)
    auto_adjust prepost timeout.

(** Provider names and the names of the canonical schema. *)
Definition SCHEMA : list (pystr * pystr) :=
  [ (py "Open", py "open"); (py "High", py "high"); (py "Low", py "low");
    (py "Close", py "close"); (py "Volume", py "volume") ].

(** "No data": a missing or an empty frame. *)
Definition no_data (df : option RawFrame) : Prop :=
  df = None \/ exists f, df = Some f /\ raw_empty f = true.

(** The tickers of a two-level column index. *)
Definition tickers (cs : list ((pystr * pystr) * Series)) : list pystr :=
  get_level_values_last cs.

(** The columns of the frame the normalisation builds from the UTC index
    and the renamed provider columns. *)
Definition out_columns (idx : Series) (cols : list (pystr * Series))
  : list (pystr * Series) :=
  let n := len idx in
  let perm := argsort (values idx) in
  [ (py "time", take perm idx);
    (py "open", take perm (column_or_none n (get cols (py "open"))));
    (py "high", take perm (column_or_none n (get cols (py "high"))));
    (py "low", take perm (column_or_none n (get cols (py "low"))));
    (py "close", take perm (column_or_none n (get cols (py "close"))));
    (py "volume", take perm (to_numeric (column_or_none n (get cols (py "volume"))))) ].

End YahooSpec.

(** Days of the year, for the proofs about the calendar. *)
Module CalendarSpec.

Import Calendar.

Definition year_len (y : Z) : Z := if _is_leap y then 366 else 365.

(** The integers [a], [a + 1], ..., [a + n - 1]. *)
Definition range (a : Z) (n : nat) : list Z := map (fun i => a + Z.of_nat i) (seq 0 n).

Definition month_len (leap : bool) (m : Z) : Z :=
  if (m =? 2) && leap then 29 else tbl _DAYS_IN_MONTH m.

Definition before_month (leap : bool) (m : Z) : Z :=
  tbl _DAYS_BEFORE_MONTH m + (if (2 <? m) && leap then 1 else 0).

(** The number, from 0, of the day [dd] of month [m] within its year. *)
Definition day_in_year (leap : bool) (m dd : Z) : Z := before_month leap m + dd - 1.

(** [_month_day] reads every day of a year back. *)
Definition month_day_ok (leap : bool) : bool :=
  forallb (fun m =>
    forallb (fun dd =>
      let md := _month_day leap (day_in_year leap m dd) in
      (fst md =? m) && (snd md =? dd))
      (range 1 (Z.to_nat (month_len leap m))))
    (range 1 12).

End CalendarSpec.

(** The command line, as the specification describes it. *)
Module CliSpec.

Import Calendar Cli.

(** A string that is there and parses: [denotes isoparse s d] says that
    the non-empty string [s] is read as the calendar day [d]. *)
Definition denotes (isoparse : pystr -> option datetime) (s : pystr) (d : date) : Prop :=
  s <> [] /\ _parse_date_yyyy_mm_dd isoparse s = Some d.

(** Start and end are both given and denote one and the same day. *)
Definition same_day (isoparse : pystr -> option datetime)
    (start end_ : option pystr) : Prop :=
  exists s e d, start = Some s /\ end_ = Some e
                /\ denotes isoparse s d /\ denotes isoparse e d.

(** The path of the fixed layout, when start and end are both given. *)
Definition fixed_path (p : Params) (start end_ : option pystr) : option Pathlib.Path :=
  if Cli.truthy start && Cli.truthy end_ then
    let ext := if Py.eqb (p_format p) (py "parquet") then py ".parquet" else py ".csv" in
    Some (Io.FIXED_DATA_ROOT
          ++ [Spec.S (p_ticker p); py "tohlcv"; Spec.S (p_interval p)]
          ++ Pathlib.segment_parts
               (Spec.S (given start) ++ py "_" ++ Spec.S (given end_) ++ ext))
  else None.

(** The path that the parameters of a run determine, when they do: the
    explicit output path if there is one, else the fixed layout with the
    start and end of the request as tags. *)
Definition request_path (isoparse : pystr -> option datetime) (answers : Answers)
    (cwd : Pathlib.Path) (args : Args) : option Pathlib.Path :=
  let p := params answers args in
  match _fix_same_day_range isoparse (p_start p) (p_end p) with
  | Raise _ => None
  | Ok (start, end_, _) =>
      if Cli.truthy (out args) then Some (Pathlib.resolve cwd (given (out args)))
      else fixed_path p start end_
  end.

(** A computation that reports no saved path. *)
Definition quiet {A} (c : M A) : Prop :=
  forall w, saved_paths (snd (c w)) = saved_paths w.

(** A computation that reports nothing, or reports [q] once. *)
Definition saves_only {A} (q : Pathlib.Path) (c : M A) : Prop :=
  forall w, saved_paths (snd (c w)) = saved_paths w
            \/ saved_paths (snd (c w)) = q :: saved_paths w.

(** A computation that can only return [a]. *)
Definition returns_only {A} (a : A) (c : M A) : Prop :=
  forall w x w', c w = (Ok x, w') -> x = a.

End CliSpec.

(* ===================================================================== *)
(** * Sample data *)
(* ===================================================================== *)

(** Concrete responses and requests, used to run the definitions. *)
Module Sample.

Import Pandas Cli.

Definition series (l : list Z) : Series := mkSeries None (map Some l).

(** Midnight UTC of 2025-01-02, 2025-01-03, 2025-02-01 and 2025-02-02, in
    nanoseconds. *)
Definition jan02 : Z := 1735776000000000000.
Definition jan03 : Z := 1735862400000000000.
Definition feb01 : Z := 1738368000000000000.
Definition feb02 : Z := 1738454400000000000.

Definition prices : list (pystr * Series) :=
  [ (py "Open", series [10; 11]); (py "High", series [12; 13]);
    (py "Low", series [9; 8]); (py "Close", series [11; 12]);
    (py "Adj Close", series [11; 12]); (py "Volume", series [100; 200]) ].

(** Two daily bars, the later one first, on a naive index. *)
Definition january : RawFrame := mkRaw (series [jan03; jan02]) (Index prices).
Definition february : RawFrame := mkRaw (series [feb01; feb02]) (Index prices).

(** A response with a two-level column index that only has MSFT. *)
Definition msft_columns : list ((pystr * pystr) * Series) :=
  [ ((py "Open", py "MSFT"), series [10; 11]); ((py "High", py "MSFT"), series [12; 13]);
    ((py "Low", py "MSFT"), series [9; 8]); ((py "Close", py "MSFT"), series [11; 12]);
    ((py "Volume", py "MSFT"), series [100; 200]) ].
Definition msft_only : RawFrame :=
  mkRaw (mkSeries (Some (py "America/New_York")) [Some jan02; Some jan03])
        (MultiIndex msft_columns).

Definition always (df : RawFrame) : Request -> option RawFrame := fun _ => Some df.

(** A frame that passes the validation and three that do not. *)
Definition good : DataFrame :=
  mkFrame (RangeIndex 2)
    [ (py "time", mkSeries (Some UTC) [Some jan02; Some jan03]);
      (py "open", series [10; 11]); (py "high", series [12; 13]);
      (py "low", series [9; 8]); (py "close", series [11; 12]);
      (py "volume", series [100; 200]) ].

Definition twice : DataFrame :=
  mkFrame (RangeIndex 2)
    [ (py "time", mkSeries (Some UTC) [Some jan02; Some jan02]);
      (py "open", series [10; 11]); (py "high", series [12; 13]);
      (py "low", series [9; 8]); (py "close", series [11; 12]);
      (py "volume", series [100; 200]) ].

Definition backwards : DataFrame :=
  mkFrame (RangeIndex 2)
    [ (py "time", mkSeries (Some UTC) [Some jan03; Some jan02]);
      (py "open", series [10; 11]); (py "high", series [12; 13]);
      (py "low", series [9; 8]); (py "close", series [11; 12]);
      (py "volume", series [100; 200]) ].

Definition no_volume : DataFrame :=
  mkFrame (RangeIndex 2)
    [ (py "time", mkSeries (Some UTC) [Some jan02; Some jan03]);
      (py "open", series [10; 11]); (py "high", series [12; 13]);
      (py "low", series [9; 8]); (py "close", series [11; 12]) ].

Definition no_answers : Answers := mkAnswers [] [] None None None [] true.

Definition home : Pathlib.Path := [py "home"].

(** [fohlcv --ticker BTC-USD --interval 1d --period 5d]. *)
Definition by_period : Args :=
  mkArgs false (Some (py "BTC-USD")) (py "1d") None None (Some (py "5d"))
         false false None (py "parquet") false.

(** [fohlcv --ticker BTC-USD --interval 1d --start 2025-01-02 --end 2025-01-04 --format csv]. *)
Definition by_dates : Args :=
  mkArgs false (Some (py "BTC-USD")) (py "1d") (Some (py "2025-01-02"))
         (Some (py "2025-01-04")) None false false None (py "csv") false.

Definition data : Pathlib.Path := Io.FIXED_DATA_ROOT ++ [py "BTC_USD"; py "tohlcv"; py "1d"].

End Sample.

(* ===================================================================== *)
(** * The calendar *)
(* ===================================================================== *)

Section CalendarProofs.

Import Calendar CalendarSpec.

Lemma date_eqb_eq (a b : date) : date_eqb a b = true <-> a = b.
Proof.
  unfold date_eqb. rewrite !andb_true_iff, !Z.eqb_eq.
  destruct a, b; simpl. split; [intros [[-> ->] ->]; reflexivity | intros [= -> -> ->]; auto].
Qed.

Lemma is_leap_spec (y : Z) :
  _is_leap y = true <-> (y mod 4 = 0 /\ (y mod 100 <> 0 \/ y mod 400 = 0)).
Proof.
  unfold _is_leap.
  rewrite andb_true_iff, orb_true_iff, negb_true_iff, !Z.eqb_eq, Z.eqb_neq. tauto.
Qed.

(** One year further, the days before it grow by the length of the year. *)
Lemma days_before_next_year (y : Z) :
  _days_before_year (y + 1) = _days_before_year y + year_len y.
Proof.
  unfold _days_before_year, year_len.
  replace (y + 1 - 1) with y by lia.
  destruct (_is_leap y) eqn:L.
  - apply is_leap_spec in L. Z.div_mod_to_equations. lia.
  - assert (H : ~ (y mod 4 = 0 /\ (y mod 100 <> 0 \/ y mod 400 = 0))).
    { intros H. apply is_leap_spec in H. congruence. }
    Z.div_mod_to_equations. lia.
Qed.

(** Reading a year-day back: [_ord2ymd] finds the year, and the tail of
    the function is handed the day within it. *)
Lemma ord2ymd_year (y k : Z) :
  1 <= y <= 9999 -> 0 <= k < year_len y ->
  _ord2ymd (_days_before_year y + k + 1)
  = mkdate y (fst (_month_day (_is_leap y) k)) (snd (_month_day (_is_leap y) k)).
Proof.
  intros Hy Hk.
  pose (a := (y - 1) / 400). pose (b := (y - 1) mod 400 / 100).
  pose (c := (y - 1) mod 100 / 4). pose (e := (y - 1) mod 4).
  assert (Hdec : y - 1 = 400 * a + 100 * b + 4 * c + e
                 /\ 0 <= a /\ 0 <= b <= 3 /\ 0 <= c <= 24 /\ 0 <= e <= 3).
  { subst a b c e. Z.div_mod_to_equations. lia. }
  assert (Hdby : _days_before_year y = 146097 * a + 36524 * b + 1461 * c + 365 * e).
  { unfold _days_before_year. subst a b c e. Z.div_mod_to_equations. lia. }
  assert (Hleap : _is_leap y = (e =? 3) && (negb (c =? 24) || (b =? 3))).
  { apply eq_true_iff_eq. rewrite is_leap_spec.
    rewrite andb_true_iff, orb_true_iff, negb_true_iff, !Z.eqb_eq, Z.eqb_neq.
    subst a b c e. Z.div_mod_to_equations. lia. }
  clearbody a b c e. destruct Hdec as [Hdec [Ha [Hb [Hc He]]]].
  unfold year_len in Hk.
  assert (Hk_le : 0 <= k <= 365) by (destruct (_is_leap y); lia).
  unfold _ord2ymd, _DI400Y, _DI100Y, _DI4Y. cbv zeta.
  replace (_days_before_year y + k + 1 - 1)
    with (146097 * a + 36524 * b + 1461 * c + 365 * e + k) by lia.
  set (N := 146097 * a + 36524 * b + 1461 * c + 365 * e + k).
  assert (H400 : N / 146097 = a /\ N mod 146097 = 36524 * b + 1461 * c + 365 * e + k).
  { subst N. Z.div_mod_to_equations. lia. }
  destruct H400 as [-> ->].
  destruct (Z.eq_dec k 365) as [->|Hk365].
  - (* the last day of a leap year *)
    destruct (_is_leap y); [|lia].
    symmetry in Hleap. apply andb_true_iff in Hleap as [He3 Hcb].
    apply Z.eqb_eq in He3. subst e.
    change (_month_day true 365) with (12, 31). cbn [fst snd].
    destruct (Z.eq_dec c 24) as [->|Hc24].
    + assert (b = 3) by (destruct (Z.eqb_spec b 3); [assumption | discriminate]).
      subst b.
      change (36524 * 3 + 1461 * 24 + 365 * 3 + 365) with 146096.
      change (146096 / 36524) with 4. change (146096 mod 36524) with 0.
      change (0 mod 1461) with 0. change (0 / 1461) with 0. change (0 / 365) with 0.
      cbn [Z.eqb orb Pos.eqb]. f_equal. lia.
    + set (R := 36524 * b + 1461 * c + 365 * 3 + 365).
      assert (H100 : R / 36524 = b /\ R mod 36524 = 1461 * c + 1460).
      { subst R. Z.div_mod_to_equations. lia. }
      destruct H100 as [-> ->].
      assert (H4 : (1461 * c + 1460) / 1461 = c /\ (1461 * c + 1460) mod 1461 = 1460).
      { Z.div_mod_to_equations. lia. }
      destruct H4 as [-> ->].
      change (1460 / 365) with 4. cbn [Z.eqb orb Pos.eqb]. f_equal. lia.
  - assert (Hk' : k < 365) by (destruct (_is_leap y); lia).
    set (R := 36524 * b + 1461 * c + 365 * e + k).
    assert (H100 : R / 36524 = b /\ R mod 36524 = 1461 * c + 365 * e + k).
    { subst R. Z.div_mod_to_equations. lia. }
    destruct H100 as [-> ->].
    assert (H4 : (1461 * c + 365 * e + k) / 1461 = c
                 /\ (1461 * c + 365 * e + k) mod 1461 = 365 * e + k).
    { Z.div_mod_to_equations. lia. }
    destruct H4 as [-> ->].
    assert (H1 : (365 * e + k) / 365 = e /\ (365 * e + k) mod 365 = k).
    { Z.div_mod_to_equations. lia. }
    destruct H1 as [-> ->].
    replace ((e =? 4) || (b =? 4)) with false
      by (symmetry; apply orb_false_iff; split; apply Z.eqb_neq; lia).
    rewrite <- Hleap. f_equal. lia.
Qed.

Local Ltac compute_tables :=
  repeat match goal with
         | H : context [month_len ?l ?m] |- _ =>
             let v := eval vm_compute in (month_len l m) in
             change (month_len l m) with v in H
         | |- context [before_month ?l ?m] =>
             let v := eval vm_compute in (before_month l m) in
             change (before_month l m) with v
         end.

Lemma range_In (a : Z) (n : nat) (x : Z) :
  a <= x < a + Z.of_nat n -> In x (range a n).
Proof.
  intros H. unfold range. apply in_map_iff.
  exists (Z.to_nat (x - a)). split; [lia|]. apply in_seq. lia.
Qed.

Lemma month_len_bounds (leap : bool) (m : Z) :
  1 <= m <= 12 -> 28 <= month_len leap m <= 31.
Proof.
  intros H.
  assert (Hm : m = 1 \/ m = 2 \/ m = 3 \/ m = 4 \/ m = 5 \/ m = 6 \/ m = 7 \/ m = 8
               \/ m = 9 \/ m = 10 \/ m = 11 \/ m = 12) by lia.
  destruct leap;
    repeat (destruct Hm as [->|Hm]; [vm_compute; split; discriminate|]);
    subst m; vm_compute; split; discriminate.
Qed.

(** The tail of [_ord2ymd] undoes the numbering of the days of a year. *)
Lemma month_day_of_day_in_year (leap : bool) (m dd : Z) :
  1 <= m <= 12 -> 1 <= dd <= month_len leap m ->
  _month_day leap (day_in_year leap m dd) = (m, dd).
Proof.
  intros Hm Hd.
  assert (Hok : month_day_ok leap = true) by (destruct leap; vm_compute; reflexivity).
  unfold month_day_ok in Hok.
  pose proof (proj1 (forallb_forall _ _) Hok m (range_In 1 12 m ltac:(lia))) as H.
  cbv beta in H.
  pose proof (proj1 (forallb_forall _ _) H dd
                (range_In 1 (Z.to_nat (month_len leap m)) dd
                   ltac:(pose proof (month_len_bounds leap m Hm); lia))) as H'.
  cbv beta zeta in H'. apply andb_true_iff in H' as [H1 H2]. clear Hok H.
  apply Z.eqb_eq in H1, H2.
  destruct (_month_day leap (day_in_year leap m dd)) as [m' d'].
  cbn [fst snd] in H1, H2. congruence.
Qed.

Lemma before_next_month (leap : bool) (m : Z) :
  1 <= m < 12 -> before_month leap (m + 1) = before_month leap m + month_len leap m.
Proof.
  intros H.
  assert (Hm : m = 1 \/ m = 2 \/ m = 3 \/ m = 4 \/ m = 5 \/ m = 6 \/ m = 7 \/ m = 8
               \/ m = 9 \/ m = 10 \/ m = 11) by lia.
  destruct leap;
    repeat (destruct Hm as [->|Hm]; [reflexivity|]); subst m; reflexivity.
Qed.

Lemma day_in_year_bounds (y m dd : Z) :
  1 <= m <= 12 -> 1 <= dd <= month_len (_is_leap y) m ->
  0 <= day_in_year (_is_leap y) m dd < year_len y
  /\ (m = 12 -> day_in_year (_is_leap y) m dd = year_len y - 32 + dd)
  /\ (m < 12 -> day_in_year (_is_leap y) m dd < year_len y - 31).
Proof.
  intros Hm Hd. unfold day_in_year, year_len.
  assert (Hc : m = 1 \/ m = 2 \/ m = 3 \/ m = 4 \/ m = 5 \/ m = 6 \/ m = 7 \/ m = 8
               \/ m = 9 \/ m = 10 \/ m = 11 \/ m = 12) by lia.
  destruct (_is_leap y);
    repeat (destruct Hc as [->|Hc]; [compute_tables; cbv beta iota; lia|]);
    subst m; compute_tables; cbv beta iota; lia.
Qed.

Lemma valid_fields (d : date) :
  valid d = true ->
  1 <= year d <= 9999 /\ 1 <= month d <= 12
  /\ 1 <= day d <= month_len (_is_leap (year d)) (month d).
Proof.
  unfold valid, MINYEAR, MAXYEAR. rewrite !andb_true_iff, !Z.leb_le.
  change (_days_in_month (year d) (month d))
    with (month_len (_is_leap (year d)) (month d)).
  lia.
Qed.

Lemma ymd2ord_day_in_year (d : date) :
  _ymd2ord d
  = _days_before_year (year d) + day_in_year (_is_leap (year d)) (month d) (day d) + 1.
Proof.
  unfold _ymd2ord, day_in_year.
  change (_days_before_month (year d) (month d))
    with (before_month (_is_leap (year d)) (month d)).
  lia.
Qed.

(** [_ord2ymd] undoes [_ymd2ord]. *)
Lemma ord2ymd_ymd2ord (d : date) : valid d = true -> _ord2ymd (_ymd2ord d) = d.
Proof.
  intros Hv. destruct (valid_fields d Hv) as [Hy [Hm Hd]].
  rewrite ymd2ord_day_in_year, ord2ymd_year; [| exact Hy |].
  - rewrite month_day_of_day_in_year by assumption. destruct d; reflexivity.
  - apply day_in_year_bounds; assumption.
Qed.

Lemma days_before_year_bounds (y : Z) :
  1 <= y <= 9999 ->
  0 <= _days_before_year y /\ _days_before_year y + year_len y <= _MAXORDINAL.
Proof.
  intros Hy. unfold _MAXORDINAL.
  destruct (Z.eq_dec y 9999) as [->|Hn]; [vm_compute; split; discriminate|].
  assert (year_len y <= 366) by (unfold year_len; destruct (_is_leap y); lia).
  unfold _days_before_year. Z.div_mod_to_equations. lia.
Qed.

(** Adding one day through the ordinal gives the next day of the
    calendar; only the last day of year 9999 has none. *)
Lemma add_one_day (d : date) :
  valid d = true -> d <> last_day -> add_days d 1 = Ok (next_day d).
Proof.
  intros Hv Hlast. destruct (valid_fields d Hv) as [Hy [Hm Hd]].
  destruct d as [y m dd]. cbn [year month day] in *.
  destruct (day_in_year_bounds y m dd Hm Hd) as [Hk [Hk12 Hklt]].
  destruct (days_before_year_bounds y Hy) as [Hb0 Hb1].
  assert (Hord : _ord2ymd (_ymd2ord (mkdate y m dd) + 1) = next_day (mkdate y m dd)
                 /\ _ymd2ord (mkdate y m dd) + 1 <= _MAXORDINAL).
  { rewrite ymd2ord_day_in_year. cbn [year month day].
    unfold next_day. cbn [year month day].
    change (_days_in_month y m) with (month_len (_is_leap y) m).
    destruct (Z.ltb_spec dd (month_len (_is_leap y) m)) as [Hlt|Hge].
    - (* within the month *)
      destruct (day_in_year_bounds y m (dd + 1) Hm ltac:(lia)) as [Hk' _].
      replace (_days_before_year y + day_in_year (_is_leap y) m dd + 1 + 1)
        with (_days_before_year y + day_in_year (_is_leap y) m (dd + 1) + 1)
        by (unfold day_in_year; lia).
      rewrite ord2ymd_year by assumption.
      rewrite month_day_of_day_in_year by lia.
      split; [reflexivity | unfold day_in_year in *; lia].
    - assert (dd = month_len (_is_leap y) m) by lia. subst dd.
      destruct (Z.ltb_spec m 12) as [Hm12|Hm12].
      + (* first day of the next month *)
        pose proof (month_len_bounds (_is_leap y) (m + 1) ltac:(lia)) as Hl.
        destruct (day_in_year_bounds y (m + 1) 1 ltac:(lia) ltac:(lia)) as [Hk' _].
        replace (_days_before_year y
                 + day_in_year (_is_leap y) m (month_len (_is_leap y) m) + 1 + 1)
          with (_days_before_year y + day_in_year (_is_leap y) (m + 1) 1 + 1)
          by (unfold day_in_year; rewrite before_next_month by lia; lia).
        rewrite ord2ymd_year by assumption.
        rewrite month_day_of_day_in_year by lia.
        split; [reflexivity|]. specialize (Hklt Hm12). lia.
      + (* first day of the next year *)
        assert (m = 12) by lia. subst m. clear Hklt.
        specialize (Hk12 eq_refl).
        assert (Hd31 : month_len (_is_leap y) 12 = 31) by (destruct (_is_leap y); reflexivity).
        rewrite Hd31 in *.
        assert (Hy' : y < 9999).
        { destruct (Z.eq_dec y 9999) as [->|]; [|lia].
          exfalso. apply Hlast. reflexivity. }
        destruct (days_before_year_bounds (y + 1) ltac:(lia)) as [_ Hb2].
        replace (_days_before_year y + day_in_year (_is_leap y) 12 31 + 1 + 1)
          with (_days_before_year (y + 1) + 0 + 1)
          by (rewrite days_before_next_year; lia).
        rewrite ord2ymd_year;
          [| lia | unfold year_len; destruct (_is_leap (y + 1)); lia].
        split.
        * destruct (_is_leap (y + 1)); reflexivity.
        * assert (0 < year_len (y + 1))
            by (unfold year_len; destruct (_is_leap (y + 1)); lia).
          lia. }
  destruct Hord as [Hord Hmax].
  unfold add_days.
  assert (H0 : 0 < _ymd2ord (mkdate y m dd) + 1).
  { rewrite ymd2ord_day_in_year. cbn [year month day]. lia. }
  apply Z.ltb_lt in H0. apply Z.leb_le in Hmax. rewrite H0, Hmax, Hord. reflexivity.
Qed.

Lemma next_day_valid (d : date) :
  valid d = true -> d <> last_day -> valid (next_day d) = true.
Proof.
  intros Hv Hlast. destruct (valid_fields d Hv) as [Hy [Hm Hd]].
  destruct d as [y m dd]. cbn [year month day] in *.
  unfold next_day. cbn [year month day].
  change (_days_in_month y m) with (month_len (_is_leap y) m).
  unfold valid, MINYEAR, MAXYEAR.
  destruct (Z.ltb_spec dd (month_len (_is_leap y) m)) as [Hlt|Hge];
    [|destruct (Z.ltb_spec m 12) as [Hm12|Hm12]];
    cbn [year month day];
    rewrite !andb_true_iff, !Z.leb_le;
    change (_days_in_month ?a ?b) with (month_len (_is_leap a) b).
  - lia.
  - pose proof (month_len_bounds (_is_leap y) (m + 1) ltac:(lia)). lia.
  - assert (m = 12) by lia. subst m.
    assert (Hd31 : month_len (_is_leap y) 12 = 31) by (destruct (_is_leap y); reflexivity).
    assert (y <> 9999).
    { intros ->. apply Hlast. f_equal. lia. }
    pose proof (month_len_bounds (_is_leap (y + 1)) 1 ltac:(lia)). lia.
Qed.

Lemma digit_char (r : Z) :
  0 <= r < 10 ->
  Py.is_digit (Z.to_N (48 + r)) = true /\ digit_val (Z.to_N (48 + r)) = r.
Proof.
  intros H. unfold Py.is_digit, Py.in_range, digit_val.
  rewrite andb_true_iff, !N.leb_le. lia.
Qed.

(** The text [isoformat] writes is read back, by the strict parser, as
    the date it was written from. *)
Lemma isoformat_parses (d : date) :
  valid d = true -> isoparse_ymd (isoformat d) = Some d.
Proof.
  intros Hv. destruct (valid_fields d Hv) as [Hy [Hm Hd]].
  pose proof (month_len_bounds (_is_leap (year d)) (month d) Hm) as Hl.
  destruct d as [y m dd]. cbn [year month day] in *.
  unfold isoformat. cbn [year month day digits app].
  change (py "-") with [45%N]. cbn [app].
  unfold isoparse_ymd.
  assert (D : forall x, 0 <= x mod 10 < 10) by (intros x; apply Z.mod_pos_bound; lia).
  cbn [forallb].
  rewrite !(proj1 (digit_char _ (D _))). cbn [andb N.eqb Pos.eqb].
  unfold number. cbn [fold_left].
  rewrite !(proj2 (digit_char _ (D _))).
  replace ((((0 * 10 + (y / 10 / 10 / 10) mod 10) * 10 + (y / 10 / 10) mod 10) * 10
            + (y / 10) mod 10) * 10 + y mod 10) with y
    by (Z.div_mod_to_equations; lia).
  replace ((0 * 10 + (m / 10) mod 10) * 10 + m mod 10) with m
    by (Z.div_mod_to_equations; lia).
  replace ((0 * 10 + (dd / 10) mod 10) * 10 + dd mod 10) with dd
    by (Z.div_mod_to_equations; lia).
  unfold mk. rewrite Hv. reflexivity.
Qed.

End CalendarProofs.

(* ===================================================================== *)
(** * Strings: stripping and run replacement *)
(* ===================================================================== *)

Lemma last_rev_head {A} (s : list A) : last (rev s) = head s.
Proof. destruct s as [|c s]; [reflexivity|]. simpl. apply last_snoc. Qed.

Section Strip.

Variable q : Py.char -> bool.

Lemma lstrip_all (s : pystr) : forallb q s = true -> Py.lstrip q s = [].
Proof.
  induction s as [|c s IH]; simpl; [reflexivity|].
  intros H. apply andb_true_iff in H as [Hc Hs]. rewrite Hc. auto.
Qed.

Lemma lstrip_snoc (s : pystr) (c : Py.char) :
  Py.lstrip q (s ++ [c]) =
  if forallb q s then (if q c then [] else [c]) else Py.lstrip q s ++ [c].
Proof.
  induction s as [|d s IH]; simpl; [reflexivity|].
  destruct (q d); simpl; [exact IH | reflexivity].
Qed.

Lemma forallb_rev (s : pystr) : forallb q (rev s) = forallb q s.
Proof.
  induction s as [|c s IH]; simpl; [reflexivity|].
  rewrite forallb_app, IH. simpl. rewrite andb_true_r. apply andb_comm.
Qed.

Lemma rstrip_cons (c : Py.char) (s : pystr) :
  Py.rstrip q (c :: s) = if forallb q s && q c then [] else c :: Py.rstrip q s.
Proof.
  unfold Py.rstrip. simpl. rewrite lstrip_snoc, forallb_rev.
  destruct (forallb q s) eqn:Hs; simpl.
  - destruct (q c); [reflexivity|].
    rewrite lstrip_all by (rewrite forallb_rev; exact Hs). reflexivity.
  - rewrite rev_app_distr. reflexivity.
Qed.

Lemma rstrip_all (s : pystr) : forallb q s = true -> Py.rstrip q s = [].
Proof.
  intros H. unfold Py.rstrip. rewrite lstrip_all; [reflexivity|].
  rewrite forallb_rev. exact H.
Qed.

(** Stripping on the left and on the right commute. *)
Lemma strip_comm (s : pystr) : Py.lstrip q (Py.rstrip q s) = Py.rstrip q (Py.lstrip q s).
Proof.
  induction s as [|c s IH]; [reflexivity|].
  rewrite rstrip_cons. simpl. destruct (q c) eqn:Hc.
  - rewrite andb_true_r. destruct (forallb q s) eqn:Hs.
    + rewrite (lstrip_all s Hs). reflexivity.
    + simpl. rewrite Hc. exact IH.
  - rewrite andb_false_r. simpl. rewrite Hc, rstrip_cons, Hc, andb_false_r. reflexivity.
Qed.

Lemma lstrip_head (s : pystr) (c : Py.char) : head (Py.lstrip q s) = Some c -> q c = false.
Proof.
  induction s as [|d s IH]; simpl; [discriminate|].
  destruct (q d) eqn:Hd; [exact IH|]. simpl. intros [= <-]. exact Hd.
Qed.

Lemma strip_head (s : pystr) (c : Py.char) : head (Py.strip q s) = Some c -> q c = false.
Proof. unfold Py.strip. rewrite <- strip_comm. apply lstrip_head. Qed.

Lemma strip_last (s : pystr) (c : Py.char) : last (Py.strip q s) = Some c -> q c = false.
Proof.
  unfold Py.strip, Py.rstrip. rewrite last_rev_head. apply lstrip_head.
Qed.

(** A stripped string is a piece of the original. *)
Lemma lstrip_suffix (s : pystr) : exists p, s = p ++ Py.lstrip q s /\ forallb q p = true.
Proof.
  induction s as [|c s [p [IH Hp]]]; simpl.
  - exists []. auto.
  - destruct (q c) eqn:Hc.
    + exists (c :: p). simpl. rewrite Hc, Hp. split; [congruence | reflexivity].
    + exists []. auto.
Qed.

Lemma rstrip_prefix (s : pystr) : exists p, s = Py.rstrip q s ++ p /\ forallb q p = true.
Proof.
  unfold Py.rstrip. destruct (lstrip_suffix (rev s)) as [p [E Hp]].
  exists (rev p). split.
  - rewrite <- rev_app_distr, <- E, rev_involutive. reflexivity.
  - rewrite forallb_rev. exact Hp.
Qed.

Lemma strip_infix (s : pystr) :
  exists p r, s = p ++ Py.strip q s ++ r /\ forallb q p = true /\ forallb q r = true.
Proof.
  destruct (lstrip_suffix s) as [p [E Hp]].
  destruct (rstrip_prefix (Py.lstrip q s)) as [r [E' Hr]].
  exists p, r. unfold Py.strip. rewrite <- E', <- E. auto.
Qed.

Lemma strip_all (s : pystr) : forallb q s = true -> Py.strip q s = [].
Proof. intros H. unfold Py.strip. rewrite lstrip_all by exact H. reflexivity. Qed.

(** Stripping by a smaller class first changes nothing. *)
Lemma lstrip_lstrip (q' : Py.char -> bool) (s : pystr) :
  (forall c, q' c = true -> q c = true) ->
  Py.lstrip q (Py.lstrip q' s) = Py.lstrip q s.
Proof.
  intros Hsub. induction s as [|c s IH]; simpl; [reflexivity|].
  destruct (q' c) eqn:Hc.
  - rewrite (Hsub c Hc). exact IH.
  - reflexivity.
Qed.

End Strip.

Section Runs.

(** A class [cls] and a replacement character [u]. *)
Variable cls : Py.char -> bool.
Variable u : Py.char.

Local Abbreviation scan := (Spec.scan cls u).
Local Abbreviation last_in := (Spec.last_in cls).
Local Abbreviation no_adjacent := Spec.no_adjacent.
Local Abbreviation starts_in := Spec.starts_in.

Lemma re_sub_plus_scan (s : pystr) : Py.re_sub_plus cls [u] s = scan false s.
Proof.
  enough (H : Py.re_sub_plus cls [u] s = scan false s /\
              (fix skip (t : pystr) : pystr :=
                 match t with
                 | [] => []
                 | d :: t' => if cls d then skip t' else d :: Py.re_sub_plus cls [u] t'
                 end) s = scan true s) by apply H.
  induction s as [|c s [IH1 IH2]]; [split; reflexivity|].
  split; simpl; destruct (cls c); simpl; congruence.
Qed.

Lemma last_in_cons b c s : last_in b (c :: s) = last_in (cls c) s.
Proof. unfold Spec.last_in. rewrite last_cons. destruct (last s); reflexivity. Qed.

Lemma scan_snoc (b : bool) (s : pystr) (c : Py.char) :
  scan b (s ++ [c]) =
  scan b s ++ (if cls c then (if last_in b s then [] else [u]) else [c]).
Proof.
  revert b. induction s as [|d s IH]; intros b; simpl.
  - rewrite app_nil_r. reflexivity.
  - rewrite IH, last_in_cons, app_assoc. reflexivity.
Qed.

Lemma scan_app (b : bool) (x y : pystr) :
  scan b (x ++ y) = scan b x ++ scan (last_in b x) y.
Proof.
  revert b. induction x as [|c x IH]; intros b; [reflexivity|].
  simpl. rewrite IH, last_in_cons, app_assoc. reflexivity.
Qed.

Lemma scan_flag (s : pystr) :
  scan false s = (if match s with c :: _ => cls c | [] => false end then [u] else [])
                 ++ scan true s.
Proof. destruct s as [|c s]; simpl; [reflexivity|]. destruct (cls c); reflexivity. Qed.

Lemma last_in_rev (s : pystr) :
  last_in false (rev s) = match s with c :: _ => cls c | [] => false end.
Proof.
  unfold Spec.last_in. rewrite last_rev_head. destruct s; reflexivity.
Qed.

(** Run replacement does not care about the reading direction. *)
Lemma scan_rev (s : pystr) : scan false (rev s) = rev (scan false s).
Proof.
  induction s as [|c s IH]; [reflexivity|].
  simpl. rewrite scan_snoc, IH, last_in_rev, rev_app_distr.
  destruct (cls c) eqn:Hc.
  - rewrite (scan_flag s). destruct s as [|d s]; simpl; [reflexivity|].
    destruct (cls d); simpl; rewrite ?rev_app_distr; simpl;
      rewrite <- ?app_assoc; reflexivity.
  - rewrite (scan_flag s). destruct s as [|d s]; simpl; [reflexivity|].
    destruct (cls d); reflexivity.
Qed.

(** Every character of the result is [u] or a character of the input
    outside the class. *)
Lemma scan_chars (b : bool) (s : pystr) (c : Py.char) :
  In c (scan b s) -> c = u \/ (In c s /\ cls c = false).
Proof.
  revert b. induction s as [|d s IH]; intros b; simpl; [tauto|].
  rewrite in_app_iff. intros [H|H].
  - destruct (cls d) eqn:Hd.
    + destruct b; simpl in H; [tauto|]. destruct H as [<-|[]]. auto.
    + simpl in H. destruct H as [<-|[]]. auto.
  - destruct (IH _ H) as [->|[? ?]]; auto.
Qed.

(** Characters outside the class survive. *)
Lemma scan_keeps (b : bool) (s : pystr) (c : Py.char) :
  In c s -> cls c = false -> In c (scan b s).
Proof.
  revert b. induction s as [|d s IH]; intros b; simpl; [tauto|].
  intros [->|H] Hc; rewrite in_app_iff.
  - rewrite Hc. left. simpl. auto.
  - right. auto.
Qed.

Lemma scan_starts (s : pystr) : starts_in cls (scan true s) = false.
Proof.
  induction s as [|c s IH]; simpl; [reflexivity|].
  destruct (cls c) eqn:Hc; simpl; [exact IH | exact Hc].
Qed.

Lemma no_adjacent_cons p a t :
  no_adjacent p (a :: t) = negb (p a && starts_in p t) && no_adjacent p t.
Proof.
  destruct t as [|b t]; simpl; [rewrite andb_false_r|]; reflexivity.
Qed.

Lemma scan_no_adjacent (b : bool) (s : pystr) : no_adjacent cls (scan b s) = true.
Proof.
  revert b. induction s as [|c s IH]; intros b; [reflexivity|].
  simpl. destruct (cls c) eqn:Hc.
  - destruct b; simpl app; [apply IH|].
    rewrite no_adjacent_cons, scan_starts, andb_false_r. simpl. apply IH.
  - simpl app. rewrite no_adjacent_cons, Hc. simpl. apply IH.
Qed.

(** What replacing the maximal runs means: a string without class
    characters stays as it is, and a run between a piece that does not end
    in the class and a piece that does not start in it becomes the single
    [u], the pieces being treated on their own. *)
Lemma replace_runs_free (s : pystr) :
  forallb (fun c => negb (cls c)) s = true -> Spec.replace_runs cls u s = s.
Proof.
  unfold Spec.replace_runs. generalize false.
  induction s as [|c s IH]; intros b H; [reflexivity|].
  simpl in H. apply andb_true_iff in H as [Hc Hs]. apply negb_true_iff in Hc.
  simpl. rewrite Hc, (IH _ Hs). reflexivity.
Qed.

Lemma scan_run (run : pystr) :
  run <> [] -> forallb cls run = true ->
  scan false run = [u] /\ last_in false run = true.
Proof.
  intros Hne Hall. destruct run as [|c run]; [congruence|].
  simpl in Hall. apply andb_true_iff in Hall as [Hc Hall].
  simpl. rewrite Hc, last_in_cons, Hc. clear Hne c Hc.
  induction run as [|d run IH]; [split; reflexivity|].
  simpl in Hall. apply andb_true_iff in Hall as [Hd Hall].
  simpl. rewrite Hd, last_in_cons, Hd. exact (IH Hall).
Qed.

Lemma replace_runs_run (a run b : pystr) :
  last_in false a = false -> run <> [] -> forallb cls run = true ->
  starts_in cls b = false ->
  Spec.replace_runs cls u (a ++ run ++ b)
  = Spec.replace_runs cls u a ++ [u] ++ Spec.replace_runs cls u b.
Proof.
  intros Ha Hne Hall Hb. unfold Spec.replace_runs.
  destruct (scan_run run Hne Hall) as [Hr Hl].
  rewrite scan_app, Ha, scan_app, Hr, Hl. f_equal. f_equal.
  rewrite (scan_flag b). destruct b as [|c b]; [reflexivity|].
  simpl in Hb. rewrite Hb. reflexivity.
Qed.

(** Leading class characters of the input do not show after the result
    is stripped of [u]. *)
Lemma scan_true_lstrip (s : pystr) : scan true s = scan false (Py.lstrip cls s).
Proof.
  induction s as [|c s IH]; simpl; [reflexivity|].
  destruct (cls c) eqn:Hc; simpl; [exact IH|]. rewrite Hc. reflexivity.
Qed.

Variable q : Py.char -> bool.
Hypothesis q_u : q u = true.

Lemma lstrip_scan (s : pystr) :
  Py.lstrip q (scan false s) = Py.lstrip q (scan false (Py.lstrip cls s)).
Proof.
  destruct s as [|c s]; [reflexivity|]. simpl.
  destruct (cls c) eqn:Hc; simpl.
  - rewrite q_u, scan_true_lstrip. reflexivity.
  - rewrite Hc. reflexivity.
Qed.

Lemma lstrip_scan_lstrip (w : Py.char -> bool) (s : pystr) :
  (forall c, w c = true -> cls c = true) ->
  Py.lstrip q (scan false (Py.lstrip w s)) = Py.lstrip q (scan false s).
Proof.
  intros Hw. rewrite lstrip_scan, (lstrip_lstrip cls w s Hw), <- lstrip_scan. reflexivity.
Qed.

Lemma rstrip_scan_rstrip (w : Py.char -> bool) (s : pystr) :
  (forall c, w c = true -> cls c = true) ->
  Py.rstrip q (scan false (Py.rstrip w s)) = Py.rstrip q (scan false s).
Proof.
  intros Hw. unfold Py.rstrip.
  rewrite <- !scan_rev, rev_involutive, (lstrip_scan_lstrip w (rev s) Hw). reflexivity.
Qed.

(** Stripping the input by a class inside [cls] first does not change the
    stripped result. *)
Lemma strip_scan_strip (w : Py.char -> bool) (s : pystr) :
  (forall c, w c = true -> cls c = true) ->
  Py.strip q (scan false (Py.strip w s)) = Py.strip q (scan false s).
Proof.
  intros Hw. unfold Py.strip.
  rewrite <- !(strip_comm q), (rstrip_scan_rstrip w _ Hw), !(strip_comm q).
  rewrite (lstrip_scan_lstrip w s Hw). reflexivity.
Qed.

End Runs.

(* ===================================================================== *)
(** * The token sanitiser *)
(* ===================================================================== *)

Section Idempotent.

Variable p : Py.char -> bool.
Variable u : Py.char.
Hypothesis p_only_u : forall c, p c = true -> c = u.

(** Replacing runs in a string that has no two class characters in a row
    gives the string back. *)
Lemma scan_fixed (b : bool) (s : pystr) :
  Spec.no_adjacent p s = true ->
  (b = true -> Spec.starts_in p s = false) ->
  Spec.scan p u b s = s.
Proof.
  revert b. induction s as [|c s IH]; intros b Hadj Hb; [reflexivity|].
  rewrite no_adjacent_cons in Hadj. apply andb_true_iff in Hadj as [Hc Hs].
  simpl. rewrite IH; [| exact Hs |].
  - destruct (p c) eqn:Hpc; [|reflexivity].
    destruct b; [specialize (Hb eq_refl); simpl in Hb; congruence|].
    rewrite (p_only_u c Hpc). reflexivity.
  - intros Hpc. rewrite Hpc in Hc. simpl in Hc.
    destruct (Spec.starts_in p s); [discriminate | reflexivity].
Qed.

End Idempotent.

Lemma no_adjacent_weaken (p p' : Py.char -> bool) (s : pystr) :
  (forall c, p c = true -> p' c = true) ->
  Spec.no_adjacent p' s = true -> Spec.no_adjacent p s = true.
Proof.
  intros Hpp. induction s as [|a [|b t] IH]; simpl; try reflexivity.
  intros H. apply andb_true_iff in H as [H1 H2].
  apply andb_true_iff. split; [|apply IH; exact H2].
  destruct (p a) eqn:Ha, (p b) eqn:Hb; try reflexivity.
  rewrite (Hpp a Ha), (Hpp b Hb) in H1. discriminate.
Qed.

Lemma no_adjacent_app (p : Py.char -> bool) (a b : pystr) :
  Spec.no_adjacent p (a ++ b) = true ->
  Spec.no_adjacent p a = true /\ Spec.no_adjacent p b = true.
Proof.
  induction a as [|x a IH]; [simpl; auto|].
  rewrite <- app_comm_cons, !no_adjacent_cons.
  intros H. apply andb_true_iff in H as [H1 H2].
  destruct (IH H2) as [Ha Hb]. split; [|exact Hb].
  rewrite Ha, andb_true_r.
  destruct a as [|y a]; simpl in *; [rewrite andb_false_r; reflexivity | exact H1].
Qed.

Lemma no_adjacent_lookup (p : Py.char -> bool) (s : pystr) (i : nat) (a b : Py.char) :
  Spec.no_adjacent p s = true ->
  s !! i = Some a -> s !! (S i) = Some b -> p a = true -> p b = true -> False.
Proof.
  revert i. induction s as [|x [|y t] IH]; intros i Hadj Ha Hb Hpa Hpb.
  - discriminate.
  - destruct i; discriminate.
  - simpl in Hadj. apply andb_true_iff in Hadj as [H1 H2].
    destruct i as [|i].
    + simpl in Ha, Hb. injection Ha as ->. injection Hb as ->.
      rewrite Hpa, Hpb in H1. discriminate.
    + exact (IH i H2 Ha Hb Hpa Hpb).
Qed.

Lemma isspace_non_alnum (c : Py.char) : Py.isspace c = true -> Py.non_alnum c = true.
Proof.
  unfold Py.isspace, Py.non_alnum, Py.is_alnum, Py.is_upper, Py.is_lower, Py.is_digit,
    Py.in_range.
  intros H.
  repeat match type of H with
         | (_ || _) = true => apply orb_true_iff in H as [H|H]
         | (_ && _) = true => apply andb_true_iff in H as [? H]
         end;
  repeat match goal with
         | H : (_ <=? _)%N = true |- _ => apply N.leb_le in H
         | H : (_ =? _)%N = true |- _ => apply N.eqb_eq in H
         end;
  apply negb_true_iff;
  repeat (apply orb_false_iff; split);
  apply andb_false_iff;
  try (left; apply N.leb_gt; lia); right; apply N.leb_gt; lia.
Qed.

Lemma underscore_non_alnum (c : Py.char) : Py.is_underscore c = true -> Py.non_alnum c = true.
Proof.
  unfold Py.is_underscore, Py.underscore. intros H. apply N.eqb_eq in H. subst c. reflexivity.
Qed.

Lemma underscore_only (c : Py.char) : Py.is_underscore c = true -> c = Py.underscore.
Proof. unfold Py.is_underscore. apply N.eqb_eq. Qed.

Lemma strip_In (q : Py.char -> bool) (s : pystr) (c : Py.char) :
  In c (Py.strip q s) -> In c s.
Proof.
  destruct (strip_infix q s) as [a [b [E _]]]. intros H.
  rewrite E, !in_app_iff. auto.
Qed.

Lemma truthy_nonempty (s : pystr) : Py.truthy s = true <-> s <> [].
Proof.
  unfold Py.truthy, Py.eqb. rewrite negb_true_iff, bool_decide_eq_false. tauto.
Qed.

Lemma truthy_cons (c : Py.char) (s : pystr) : Py.truthy (c :: s) = true.
Proof. apply truthy_nonempty. discriminate. Qed.

Local Abbreviation core := Spec.core.

Lemma core_chars (s : pystr) (c : Py.char) :
  In c (core s) -> c = Py.underscore \/ (In c s /\ Py.is_alnum c = true).
Proof.
  intros H. apply strip_In, scan_chars in H as [H|[H1 H2]]; [auto|].
  right. split; [exact H1|]. apply negb_false_iff. exact H2.
Qed.

Lemma core_no_adjacent (s : pystr) : Spec.no_adjacent Py.is_underscore (core s) = true.
Proof.
  unfold Spec.core.
  destruct (strip_infix Py.is_underscore
              (Spec.replace_runs Py.non_alnum Py.underscore s)) as [a [b [E _]]].
  pose proof (scan_no_adjacent Py.non_alnum Py.underscore false s) as H.
  unfold Spec.replace_runs in E. rewrite E in H.
  apply no_adjacent_app in H as [_ H]. apply no_adjacent_app in H as [H _].
  exact (no_adjacent_weaken _ _ _ underscore_non_alnum H).
Qed.

(** A non-empty core starts with an alphanumeric character. *)
Lemma core_truthy (s : pystr) : Py.truthy (core s) = existsb Py.is_alnum (core s).
Proof.
  destruct (core s) as [|c r] eqn:E; [reflexivity|].
  rewrite truthy_cons. symmetry. simpl.
  assert (Hh : Py.is_underscore c = false).
  { apply (strip_head Py.is_underscore
             (Spec.replace_runs Py.non_alnum Py.underscore s)).
    fold (core s). rewrite E. reflexivity. }
  destruct (core_chars s c) as [->|[_ Hc]].
  - rewrite E. left. reflexivity.
  - discriminate.
  - rewrite Hc. reflexivity.
Qed.

(** [_sanitize_token] computes the sanitiser of the specification: the
    first [strip()] and the second [re.sub] change nothing. *)
Lemma sanitize_token_spec (s : pystr) : Io._sanitize_token s = Spec.S s.
Proof.
  unfold Io._sanitize_token, Spec.S. fold (core s).
  change (py "_") with [Py.underscore].
  rewrite !re_sub_plus_scan.
  rewrite (scan_fixed Py.is_underscore Py.underscore underscore_only false).
  - rewrite (strip_scan_strip Py.non_alnum Py.underscore Py.is_underscore eq_refl
               Py.isspace s isspace_non_alnum).
    fold (Spec.replace_runs Py.non_alnum Py.underscore s). fold (core s).
    rewrite core_truthy. reflexivity.
  - apply (no_adjacent_weaken _ _ _ underscore_non_alnum).
    apply scan_no_adjacent.
  - discriminate.
Qed.

Lemma alnum_token_char (c : Py.char) : Py.is_alnum c = true -> Spec.token_char c.
Proof.
  unfold Py.is_alnum, Py.is_upper, Py.is_lower, Py.is_digit, Py.in_range, Spec.token_char.
  intros H.
  repeat match type of H with
         | (_ || _) = true => apply orb_true_iff in H as [H|H]
         end;
  apply andb_true_iff in H as [H1 H2]; apply N.leb_le in H1, H2; lia.
Qed.

Lemma S_cases (s : pystr) :
  (existsb Py.is_alnum (core s) = true /\ Spec.S s = core s)
  \/ (existsb Py.is_alnum (core s) = false /\ Spec.S s = py "NA").
Proof.
  unfold Spec.S. destruct (existsb Py.is_alnum (core s)); [left | right]; auto.
Qed.

Lemma S_nonempty (s : pystr) : Spec.S s <> [].
Proof.
  destruct (S_cases s) as [[Hex ->]|[_ ->]]; [|discriminate].
  intros E. rewrite E in Hex. discriminate.
Qed.

Lemma S_token_chars (s : pystr) (c : Py.char) : In c (Spec.S s) -> Spec.token_char c.
Proof.
  destruct (S_cases s) as [[_ ->]|[_ ->]]; intros Hc.
  - destruct (core_chars s c Hc) as [->|[_ H]].
    + right. right. right. reflexivity.
    + apply alnum_token_char, H.
  - vm_compute in Hc. destruct Hc as [<-|[<-|[]]]; unfold Spec.token_char; lia.
Qed.

(** ** C9 *)

(** C9.  For every input string, [_sanitize_token] returns a non-empty string
    made of ASCII letters, digits and underscores only, that neither starts
    nor ends with an underscore and has no two underscores in a row; and when
    the input has no alphanumeric character at all, the result is the
    literal token ["NA"]. *)
Theorem sanitize_token_shape (s : pystr) :
  let r := Io._sanitize_token s in
  r <> []
  /\ (forall c, In c r -> Spec.token_char c)
  /\ head r <> Some Py.underscore
  /\ last r <> Some Py.underscore
  /\ (forall i, r !! i = Some Py.underscore -> r !! (S i) <> Some Py.underscore)
  /\ ((forall c, In c s -> Py.is_alnum c = false) -> r = py "NA").
Proof.
  cbv zeta. rewrite sanitize_token_spec.
  split; [apply S_nonempty|]. split; [apply S_token_chars|].
  destruct (S_cases s) as [[Hex ->]|[Hex ->]].
  - (* something alphanumeric is left: the stripped result of the replacement *)
    split; [|split; [|split]].
    + intros H. apply (strip_head Py.is_underscore) in H. discriminate.
    + intros H. apply (strip_last Py.is_underscore) in H. discriminate.
    + intros i Ha Hb.
      exact (no_adjacent_lookup Py.is_underscore _ i _ _ (core_no_adjacent s) Ha Hb
               eq_refl eq_refl).
    + intros Hno. apply existsb_exists in Hex as [c [Hc Hal]].
      destruct (core_chars s c Hc) as [->|[Hin _]]; [discriminate|].
      rewrite (Hno c Hin) in Hal. discriminate.
  - (* nothing alphanumeric: the fallback *)
    split; [discriminate|]. split; [discriminate|]. split; [|reflexivity].
    intros [|[|[|i]]]; discriminate.
Qed.

(* ===================================================================== *)
(** * The file system *)
(* ===================================================================== *)

Lemma run_mkdir_p (p : Pathlib.Path) (w : World) :
  existsb (Pathlib.is_file (fs w)) (Pathlib.prefixes p) = false ->
  mkdir_p p w =
  (Ok tt, mkWorld (requests w)
            (Pathlib.mkFS
               (List.filter (fun q => negb (Pathlib.is_dir (fs w) q)) (Pathlib.prefixes p)
                ++ Pathlib.dirs (fs w))
               (Pathlib.files (fs w)))
            (console w)).
Proof. intros H. unfold mkdir_p, Pathlib.mkdir_p. rewrite H. reflexivity. Qed.

Lemma run_mkdir_p_fail (p : Pathlib.Path) (w : World) :
  existsb (Pathlib.is_file (fs w)) (Pathlib.prefixes p) = true ->
  mkdir_p p w = (Raise OSError, w).
Proof. intros H. unfold mkdir_p, Pathlib.mkdir_p. rewrite H. reflexivity. Qed.

Lemma prefixes_length (p q : Pathlib.Path) :
  In q (Pathlib.prefixes p) -> (length q <= length p)%nat.
Proof.
  revert q. induction p as [|c p IH]; intros q; simpl; [tauto|].
  intros [<-|H]; [simpl; lia|].
  apply in_map_iff in H as [q' [<- Hq']]. specialize (IH q' Hq'). simpl. lia.
Qed.

Lemma removelast_length {A} (l : list A) :
  l <> [] -> (length (List.removelast l) < length l)%nat.
Proof.
  intros H. destruct (exists_last H) as [l' [x ->]].
  rewrite removelast_last, length_app. simpl. lia.
Qed.

(** A path is not among the ancestors that [mkdir] creates for it. *)
Lemma not_own_ancestor (p : Pathlib.Path) :
  ~ In p (Pathlib.prefixes (Pathlib.parent p)).
Proof.
  intros H. destruct p as [|c p]; [simpl in H; exact H|].
  apply prefixes_length in H.
  pose proof (removelast_length (c :: p) ltac:(discriminate)) as L.
  unfold Pathlib.parent in H. lia.
Qed.

Lemma path_eqb_eq (a b : Pathlib.Path) : Pathlib.path_eqb a b = true <-> a = b.
Proof. unfold Pathlib.path_eqb. apply bool_decide_eq_true. Qed.

Lemma is_dir_after_mkdir (fs0 : Pathlib.FS) (p : Pathlib.Path) :
  Pathlib.is_dir fs0 p = false ->
  Pathlib.is_dir
    (Pathlib.mkFS
       (List.filter (fun q => negb (Pathlib.is_dir fs0 q))
                    (Pathlib.prefixes (Pathlib.parent p)) ++ Pathlib.dirs fs0)
       (Pathlib.files fs0)) p = false.
Proof.
  intros H. unfold Pathlib.is_dir in H |- *. cbn [Pathlib.dirs].
  rewrite existsb_app, H, orb_false_r.
  apply not_true_iff_false. intros Hex.
  apply existsb_exists in Hex as [q [Hin Hq]].
  apply path_eqb_eq in Hq. subst q. apply filter_In in Hin as [Hin _].
  exact (not_own_ancestor p Hin).
Qed.

Lemma prefixes_self (c : pystr) (p : Pathlib.Path) :
  In (c :: p) (Pathlib.prefixes (c :: p)).
Proof.
  revert c. induction p as [|c' p IH]; intros c; [left; reflexivity|].
  right. apply in_map. apply IH.
Qed.

(** After [mkdir], the directory is there. *)
Lemma exists_after_mkdir (fs0 : Pathlib.FS) (q : Pathlib.Path) :
  Pathlib.exists_dir
    (Pathlib.mkFS
       (List.filter (fun x => negb (Pathlib.is_dir fs0 x)) (Pathlib.prefixes q)
        ++ Pathlib.dirs fs0)
       (Pathlib.files fs0)) q = true.
Proof.
  destruct q as [|c q]; [reflexivity|].
  unfold Pathlib.exists_dir.
  destruct (Pathlib.is_dir fs0 (c :: q)) eqn:E.
  - unfold Pathlib.is_dir in E |- *. cbn [Pathlib.dirs].
    rewrite existsb_app, E. apply orb_true_r.
  - unfold Pathlib.is_dir at 1. cbn [Pathlib.dirs]. rewrite existsb_app.
    apply orb_true_iff. left. apply existsb_exists. exists (c :: q). split.
    + apply filter_In. split; [apply prefixes_self | rewrite E; reflexivity].
    + apply path_eqb_eq. reflexivity.
Qed.

(** Reading back what was written, and everything else. *)
Lemma read_written (fs0 : Pathlib.FS) (d : list Pathlib.Path) (p : Pathlib.Path)
    (f : Pathlib.File) :
  Pathlib.read (Pathlib.mkFS d ((p, f) :: Pathlib.files fs0)) p = Some f
  /\ forall q, q <> p ->
       Pathlib.read (Pathlib.mkFS d ((p, f) :: Pathlib.files fs0)) q = Pathlib.read fs0 q.
Proof.
  unfold Pathlib.read. simpl. split.
  - rewrite (proj2 (path_eqb_eq p p) eq_refl). reflexivity.
  - intros q Hq. destruct (Pathlib.path_eqb p q) eqn:E; [|reflexivity].
    apply path_eqb_eq in E. congruence.
Qed.


(* ===================================================================== *)
(** * Output paths *)
(* ===================================================================== *)

Lemma split_on_none (p : Py.char -> bool) (s : pystr) :
  forallb (fun c => negb (p c)) s = true -> Pathlib.split_on p s = [s].
Proof.
  induction s as [|c s IH]; simpl; [reflexivity|].
  intros H. apply andb_true_iff in H as [Hc Hs].
  apply negb_true_iff in Hc. rewrite Hc, (IH Hs). reflexivity.
Qed.

(** A segment without a separator that is neither empty nor a dot is one
    component. *)
Lemma segment_parts_single (s : pystr) :
  forallb (fun c => negb (Pathlib.is_sep c)) s = true ->
  s <> [] -> s <> py "." ->
  Pathlib.segment_parts s = [s].
Proof.
  intros Hs Hne Hdot. unfold Pathlib.segment_parts.
  rewrite (split_on_none _ _ Hs). simpl.
  unfold Py.eqb. rewrite !bool_decide_eq_false_2 by assumption. reflexivity.
Qed.

Lemma token_char_not_sep (c : Py.char) : Spec.token_char c -> Pathlib.is_sep c = false.
Proof.
  unfold Spec.token_char, Pathlib.is_sep. intros H.
  apply orb_false_iff. split; apply N.eqb_neq; lia.
Qed.


Lemma S_single_part (s : pystr) : Pathlib.segment_parts (Spec.S s) = [Spec.S s].
Proof.
  pose proof (S_nonempty s) as Hne. pose proof (S_token_chars s) as Hch.
  apply segment_parts_single; [| exact Hne |].
  - apply forallb_forall. intros c Hc. apply negb_true_iff, token_char_not_sep, Hch, Hc.
  - intros E. specialize (Hch 46%N). rewrite E in Hch.
    specialize (Hch (or_introl eq_refl)). unfold Spec.token_char in Hch. lia.
Qed.

(** A file name that starts with a sanitised token and has no separator is
    one component. *)
Lemma filename_single_part (a rest : pystr) :
  forallb (fun c => negb (Pathlib.is_sep c)) rest = true ->
  Pathlib.segment_parts (Spec.S a ++ rest) = [Spec.S a ++ rest].
Proof.
  intros Hrest. pose proof (S_nonempty a) as Hne. pose proof (S_token_chars a) as Hch.
  apply segment_parts_single.
  - rewrite forallb_app, Hrest, andb_true_r.
    apply forallb_forall. intros c Hc. apply negb_true_iff, token_char_not_sep, Hch, Hc.
  - destruct (Spec.S a); [congruence | discriminate].
  - destruct (Spec.S a) as [|c r] eqn:E; [congruence|].
    intros E'. injection E' as -> _.
    specialize (Hch 46%N (or_introl eq_refl)). unfold Spec.token_char in Hch. lia.
Qed.

(** The folder and the path [build_outpath_fixed] computes. *)
Lemma outpath_folder (root : Pathlib.Path) (ticker interval : pystr) :
  Pathlib.div (Pathlib.div (Pathlib.div root (Io._sanitize_token ticker)) (py "tohlcv"))
              (Io._sanitize_token interval)
  = root ++ [Spec.S ticker; py "tohlcv"; Spec.S interval].
Proof.
  unfold Pathlib.div. rewrite !sanitize_token_spec, !S_single_part.
  change (Pathlib.segment_parts (py "tohlcv")) with [py "tohlcv"].
  rewrite <- !app_assoc. reflexivity.
Qed.

(** [build_outpath_fixed], run: the folder is created and the path
    returned. *)
Lemma build_outpath_fixed_run (ticker interval start_tag end_tag ext : pystr)
    (data_root : Pathlib.Path) :
  let folder := data_root ++ [Spec.S ticker; py "tohlcv"; Spec.S interval] in
  let file := Spec.S start_tag ++ py "_" ++ Spec.S end_tag ++ ext in
  Io.build_outpath_fixed ticker interval start_tag end_tag ext data_root
  = (mkdir_p folder ;; ret (folder ++ Pathlib.segment_parts file)).
Proof.
  cbv zeta. unfold Io.build_outpath_fixed.
  rewrite outpath_folder, !sanitize_token_spec. reflexivity.
Qed.

(** ** C4 *)

(** C4.  For every ticker, interval, start tag, end tag and extension,
    [build_outpath_fixed] returns exactly the path
    <data_root>/<S(ticker)>/tohlcv/<S(interval)>/<S(start_tag)>_<S(end_tag)><ext>,
    where [S] replaces every maximal run of non-alphanumeric characters by
    one underscore, strips leading and trailing underscores and yields a
    fixed token when nothing alphanumeric remains.  It returns whenever no
    regular file stands where the folder has to be created, and the folder
    is there afterwards; whatever it
    returns is that path and nothing else, so equal inputs give equal paths;
    and the last part is one file name when the extension has no separator. *)
Theorem build_outpath_fixed_path (ticker interval start_tag end_tag ext : pystr)
    (data_root : Pathlib.Path) (w : World) :
  let folder := data_root ++ [Spec.S ticker; py "tohlcv"; Spec.S interval] in
  let file := Spec.S start_tag ++ py "_" ++ Spec.S end_tag ++ ext in
  let path := folder ++ Pathlib.segment_parts file in
  let run := Io.build_outpath_fixed ticker interval start_tag end_tag ext data_root in
  (existsb (Pathlib.is_file (fs w)) (Pathlib.prefixes folder) = false ->
     exists w', run w = (Ok path, w')
                /\ Pathlib.exists_dir (fs w') folder = true
                /\ Pathlib.files (fs w') = Pathlib.files (fs w)
                /\ requests w' = requests w /\ console w' = console w)
  /\ (forall w1 w1' p, run w1 = (Ok p, w1') -> p = path)
  /\ (forallb (fun c => negb (Pathlib.is_sep c)) ext = true ->
      path = folder ++ [file]).
Proof.
  cbv zeta. rewrite build_outpath_fixed_run. cbv zeta. unfold bind, ret.
  repeat split.
  - intros H. rewrite (run_mkdir_p _ _ H). eexists.
    split; [reflexivity|]. split; [apply exists_after_mkdir|]. auto.
  - intros w1 w1' p.
    destruct (existsb (Pathlib.is_file (fs w1))
                (Pathlib.prefixes (data_root ++ [Spec.S ticker; py "tohlcv"; Spec.S interval])))
      eqn:H.
    + rewrite (run_mkdir_p_fail _ _ H). discriminate.
    + rewrite (run_mkdir_p _ _ H). intros [= <- _]. reflexivity.
  - intros Hext. f_equal. apply filename_single_part.
    rewrite !forallb_app, Hext, andb_true_r.
    pose proof (S_token_chars end_tag) as Hch.
    apply andb_true_iff. split; [reflexivity|].
    apply forallb_forall. intros c Hc. apply negb_true_iff, token_char_not_sep, Hch, Hc.
Qed.

(* ===================================================================== *)
(** * Saving *)
(* ===================================================================== *)

(** [save_df], run. *)
Lemma run_save_df (df : Pandas.DataFrame) (path : Pathlib.Path) (w : World) :
  existsb (Pathlib.is_file (fs w)) (Pathlib.prefixes (Pathlib.parent path)) = false ->
  Pathlib.is_dir (fs w) path = false ->
  let dirs' :=
    List.filter (fun q => negb (Pathlib.is_dir (fs w) q))
                (Pathlib.prefixes (Pathlib.parent path)) ++ Pathlib.dirs (fs w) in
  let written fmt :=
    (Ok tt, mkWorld (requests w)
              (Pathlib.mkFS dirs' ((path, Pathlib.mkFile fmt (Pandas.columns df))
                                   :: Pathlib.files (fs w)))
              (console w)) in
  Io.save_df df path w =
  if Py.eqb (Py.lower (Pathlib.suffix path)) (py ".parquet") then written Pathlib.Parquet
  else if Py.eqb (Py.lower (Pathlib.suffix path)) (py ".csv") then written Pathlib.Csv
  else (Raise (ValueError (UnsupportedExtension (Pathlib.suffix path))),
        mkWorld (requests w) (Pathlib.mkFS dirs' (Pathlib.files (fs w))) (console w)).
Proof.
  intros Hmk Hdir. cbv zeta.
  unfold Io.save_df, bind. rewrite (run_mkdir_p _ _ Hmk).
  pose proof (is_dir_after_mkdir _ _ Hdir) as Hd.
  pose proof (exists_after_mkdir (fs w) (Pathlib.parent path)) as Hp.
  destruct (Py.eqb (Py.lower (Pathlib.suffix path)) (py ".parquet"));
    [| destruct (Py.eqb (Py.lower (Pathlib.suffix path)) (py ".csv"))];
    unfold write_file, Pathlib.write, raise; cbn [fs requests console];
    rewrite ?Hd, ?Hp; reflexivity.
Qed.

(** ** C10 *)

(** C10.  [save_df] writes the frame when and only when the extension of the
    path, compared without regard to case, is [.parquet] (then it writes
    parquet) or [.csv] (then it writes csv): afterwards the path holds the
    columns of the frame in that format and every other file is as before.
    For every other extension it raises a [ValueError] and the files stay as
    they were.  (The parent folder must be creatable and the path must not be
    a directory: those are errors of the file system, not of the
    extension.) *)
Theorem save_df_by_extension (df : Pandas.DataFrame) (path : Pathlib.Path) (w : World) :
  let sfx := Py.lower (Pathlib.suffix path) in
  let r := fst (Io.save_df df path w) in
  let after := fs (snd (Io.save_df df path w)) in
  let written fmt :=
    r = Ok tt
    /\ Pathlib.read after path = Some (Pathlib.mkFile fmt (Pandas.columns df))
    /\ forall q, q <> path -> Pathlib.read after q = Pathlib.read (fs w) q in
  existsb (Pathlib.is_file (fs w)) (Pathlib.prefixes (Pathlib.parent path)) = false ->
  Pathlib.is_dir (fs w) path = false ->
  (sfx = py ".parquet" -> written Pathlib.Parquet)
  /\ (sfx = py ".csv" -> written Pathlib.Csv)
  /\ (sfx <> py ".parquet" -> sfx <> py ".csv" ->
     r = Raise (ValueError (UnsupportedExtension (Pathlib.suffix path))) /\
     Pathlib.files after = Pathlib.files (fs w)).
Proof.
  cbv zeta. intros Hmk Hdir. rewrite (run_save_df df path w Hmk Hdir). cbv zeta.
  unfold Py.eqb.
  split; [|split].
  - intros H. rewrite bool_decide_eq_true_2 by assumption.
    split; [reflexivity|]. apply read_written.
  - intros H. rewrite H. rewrite bool_decide_eq_false_2 by discriminate.
    rewrite bool_decide_eq_true_2 by reflexivity.
    split; [reflexivity|]. apply read_written.
  - intros H1 H2. rewrite !bool_decide_eq_false_2 by assumption. split; reflexivity.
Qed.

(* ===================================================================== *)
(** * Validation *)
(* ===================================================================== *)

Section ValidateProofs.

Import Pandas Validate ValidateSpec.

Local Ltac raised := split; [discriminate | intros _; eexists; reflexivity].

Lemma forallb_agree {A} (f g : A -> bool) (l : list A) :
  (forall x, In x l -> f x = g x) -> forallb f l = forallb g l.
Proof.
  induction l as [|x l IH]; intros H; [reflexivity|].
  simpl. rewrite (H x (or_introl eq_refl)), IH; [reflexivity|].
  intros y Hy. apply H. right. exact Hy.
Qed.

Lemma eqb_eq (a b : pystr) : Py.eqb a b = true <-> a = b.
Proof. unfold Py.eqb. apply bool_decide_eq_true. Qed.

Lemma has_column_get (df : DataFrame) (c : pystr) :
  has_column df c = true <-> get (columns df) c <> None.
Proof.
  unfold has_column. induction (columns df) as [|[k s] cols IH]; simpl.
  - split; [discriminate | congruence].
  - destruct (Py.eqb k c); simpl; [split; [discriminate | reflexivity] | exact IH].
Qed.

Lemma has_column_false (df : DataFrame) (c : pystr) :
  has_column df c = false <-> get (columns df) c = None.
Proof.
  rewrite <- not_true_iff_false, has_column_get.
  destruct (get (columns df) c); split; try congruence; intros H; contradict H; congruence.
Qed.

Lemma for_each_run {A} (cs : list A) (body : A -> F unit) (df : DataFrame) :
  (forall c, body c df = (Ok tt, df) \/ exists e, body c df = (Raise e, df)) ->
  for_each cs body df =
  (if forallb (fun c => is_ok (fst (body c df))) cs then Ok tt
   else match List.find (fun c => negb (is_ok (fst (body c df)))) cs with
        | Some c => fst (body c df)
        | None => Ok tt
        end, df).
Proof.
  intros Hb. induction cs as [|c cs IH]; [reflexivity|].
  simpl. unfold fbind.
  destruct (Hb c) as [E|[e E]]; rewrite E; simpl; [|rewrite ?E; reflexivity].
  rewrite IH. reflexivity.
Qed.

Lemma price_check_run (df : DataFrame) (c : pystr) :
  let body := fun c => fbind (look (fun df => getitem df c)) (fun col =>
                raise_if (all (isna col)) (ValueError (AllNaN c))) in
  (body c df = (Ok tt, df) \/ exists e, body c df = (Raise e, df))
  /\ (get (columns df) c <> None ->
      is_ok (fst (body c df)) = price_present df c).
Proof.
  cbv zeta. unfold fbind, look, getitem, raise_if, price_present, fraise, fret.
  destruct (get (columns df) c) as [col|]; [|split; [eauto | congruence]].
  destruct (all (isna col)); split; eauto.
Qed.

Lemma fbind_look {A B} (f : DataFrame -> result A) (k : A -> F B) (df : DataFrame) :
  fbind (look f) k df = match f df with Ok a => k a df | Raise e => (Raise e, df) end.
Proof. unfold fbind, look. destruct (f df); reflexivity. Qed.

Lemma fbind_raise_if {B} (c : bool) (e : exn) (k : unit -> F B) (df : DataFrame) :
  fbind (raise_if c e) k df = if c then (Raise e, df) else k tt df.
Proof. unfold fbind, raise_if. destruct c; reflexivity. Qed.

Lemma missing_none (df : DataFrame) :
  (length (List.filter (fun c => negb (has_column df c)) REQUIRED_COLS) =? 0)%nat
  = forallb (has_column df) REQUIRED_COLS.
Proof.
  induction REQUIRED_COLS as [|c cs IH]; [reflexivity|].
  simpl. destruct (has_column df c); simpl; [exact IH | reflexivity].
Qed.

Lemma required_get (df : DataFrame) (c : pystr) :
  forallb (has_column df) REQUIRED_COLS = true -> In c REQUIRED_COLS ->
  get (columns df) c <> None.
Proof.
  intros H Hc. apply has_column_get. exact (proj1 (forallb_forall _ _) H c Hc).
Qed.

Lemma OHLC_required (c : pystr) : In c OHLC -> In c REQUIRED_COLS.
Proof. unfold OHLC, REQUIRED_COLS. simpl. tauto. Qed.

(** The loop over the four price columns. *)
Lemma price_loop_run (df : DataFrame) :
  forallb (has_column df) REQUIRED_COLS = true ->
  let loop := for_each OHLC (fun c =>
                fbind (look (fun df => getitem df c)) (fun col =>
                raise_if (all (isna col)) (ValueError (AllNaN c)))) in
  (forallb (price_present df) OHLC = true -> loop df = (Ok tt, df))
  /\ (forallb (price_present df) OHLC = false ->
      exists m, loop df = (Raise (ValueError m), df)).
Proof.
  intros Hcols. cbv zeta.
  pose proof (fun c => proj1 (price_check_run df c)) as Hrun. cbv zeta in Hrun.
  rewrite (for_each_run OHLC _ df Hrun).
  assert (Hp : forall c, In c OHLC ->
            is_ok (fst (fbind (look (fun df => getitem df c)) (fun col =>
                          raise_if (all (isna col)) (ValueError (AllNaN c))) df))
            = price_present df c).
  { intros c Hc. apply (proj2 (price_check_run df c)).
    apply required_get; [exact Hcols | apply OHLC_required, Hc]. }
  rewrite (forallb_agree _ _ OHLC Hp).
  destruct (forallb (price_present df) OHLC) eqn:Hall;
    [split; [reflexivity | discriminate]|].
  split; [discriminate|]. intros _.
  destruct (List.find _ OHLC) as [c|] eqn:Hf.
  - apply find_some in Hf as [Hin Hf].
    pose proof (required_get df c Hcols (OHLC_required c Hin)) as Hg.
    rewrite fbind_look in Hf |- *. unfold getitem, raise_if, fraise, fret in Hf |- *.
    destruct (get (columns df) c) as [col|]; [|congruence].
    destruct (all (isna col)); [eexists; reflexivity | discriminate].
  - exfalso. apply not_true_iff_false in Hall. apply Hall.
    apply forallb_forall. intros c Hc.
    pose proof (find_none _ _ Hf c Hc) as Hn. cbv beta in Hn.
    rewrite (Hp c Hc) in Hn. apply negb_false_iff in Hn. exact Hn.
Qed.

(** [validate_tohlcv] makes its checks and leaves the frame alone. *)
Lemma validate_run (df : DataFrame) :
  (checks df = true -> validate_tohlcv df = (Ok tt, df))
  /\ (checks df = false -> exists m, validate_tohlcv df = (Raise (ValueError m), df)).
Proof.
  remember (validate_tohlcv df) as x eqn:E.
  unfold validate_tohlcv in E.
  rewrite fbind_look, fbind_raise_if, missing_none in E.
  unfold checks.
  destruct (forallb (has_column df) REQUIRED_COLS) eqn:Hcols; cbn [negb andb] in *;
    [|subst x; raised].
  rewrite fbind_look, fbind_raise_if in E.
  destruct (empty df); cbn [negb andb]; [subst x; raised|].
  pose proof (required_get df (py "time") Hcols ltac:(left; reflexivity)) as Ht.
  assert (Hg : exists time, getitem df (py "time") = Ok time
                            /\ get (columns df) (py "time") = Some time).
  { unfold getitem. destruct (get (columns df) (py "time")) as [time|]; [|congruence].
    exists time. auto. }
  destruct Hg as [time [Hg ->]]. clear Ht.
  rewrite fbind_look, Hg, fbind_raise_if in E.
  destruct (any (isna time)); cbn [negb andb]; [subst x; raised|].
  rewrite fbind_look, Hg in E. cbv zeta in E. rewrite fbind_raise_if in E.
  destruct (sum (duplicated time) =? 0)%nat; cbn [negb andb] in *; [|subst x; raised].
  rewrite fbind_look, Hg, fbind_raise_if in E.
  destruct (is_monotonic_increasing time); cbn [negb andb] in *; [|subst x; raised].
  subst x. exact (price_loop_run df Hcols).
Qed.

(** *** The checks and the conditions of the specification *)

Lemma columns_checked (df : DataFrame) :
  forallb (has_column df) REQUIRED_COLS = false <-> column_absent df.
Proof.
  unfold column_absent. split.
  - intros H. induction REQUIRED_COLS as [|c cs IH]; [discriminate|].
    simpl in H. destruct (has_column df c) eqn:Hc.
    + destruct (IH H) as [c' [Hin Hg]]. exists c'. split; [right|]; assumption.
    + exists c. split; [left; reflexivity | apply has_column_false, Hc].
  - intros [c [Hin Hg]]. apply not_true_iff_false. intros H.
    exact (required_get df c H Hin Hg).
Qed.

Lemma empty_checked (df : DataFrame) : empty df = true <-> frame_empty df.
Proof.
  unfold empty, frame_empty. rewrite orb_true_iff, !Nat.eqb_eq.
  destruct (columns df); simpl; split; intros [H|H]; auto; discriminate.
Qed.

Lemma isna_checked (s : Series) : any (isna s) = true <-> In None (values s).
Proof.
  unfold any, isna. induction (values s) as [|v l IH]; simpl.
  - split; [discriminate | tauto].
  - destruct v; simpl.
    + rewrite IH. split; [auto | intros [H|H]; [discriminate | exact H]].
    + split; auto.
Qed.

Lemma sum_cons (b : bool) (l : list bool) :
  sum (b :: l) = ((if b then 1 else 0) + sum l)%nat.
Proof. unfold sum. simpl. destruct b; reflexivity. Qed.

Lemma duplicated_from_none (seen l : list (option Z)) :
  sum (duplicated_from seen l) = 0%nat <->
  NoDup l /\ forall x, In x l -> ~ In x seen.
Proof.
  revert seen. induction l as [|v l IH]; intros seen.
  - simpl. split; [intros _; split; [constructor | tauto] | reflexivity].
  - cbn [duplicated_from]. rewrite sum_cons, NoDup_cons.
    destruct (bool_decide (v ∈ seen)) eqn:Hv.
    + apply bool_decide_eq_true, list_elem_of_In in Hv.
      split; [lia|]. intros [_ H]. exfalso. apply (H v); [left; reflexivity | exact Hv].
    + apply bool_decide_eq_false in Hv. rewrite list_elem_of_In in Hv.
      simpl. rewrite (IH (v :: seen)). rewrite list_elem_of_In. split.
      * intros [Hnd Hx]. repeat split; [| exact Hnd |].
        -- intros Hin. apply (Hx v Hin). left. reflexivity.
        -- intros x [<-|Hin]; [exact Hv|]. intros Hs. apply (Hx x Hin). right. exact Hs.
      * intros [[Hnv Hnd] Hx]. split; [exact Hnd|].
        intros x Hin [<-|Hs]; [exact (Hnv Hin)|].
        apply (Hx x); [right; exact Hin | exact Hs].
Qed.

Lemma duplicated_checked (s : Series) :
  (sum (duplicated s) =? 0)%nat = true <-> NoDup (values s).
Proof.
  rewrite Nat.eqb_eq. unfold duplicated. rewrite duplicated_from_none.
  split; [tauto|]. intros H. split; [exact H|]. intros x _ [].
Qed.

Lemma present_values (l : list (option Z)) :
  ~ In None l -> exists ts, l = map Some ts.
Proof.
  induction l as [|v l IH]; intros H.
  - exists []. reflexivity.
  - destruct IH as [ts ->]; [intros Hn; apply H; right; exact Hn|].
    destruct v as [a|]; [|exfalso; apply H; left; reflexivity].
    exists (a :: ts). reflexivity.
Qed.

Lemma monotonic_spec (ts : list Z) :
  monotonic (map Some ts) = true <->
  forall i a b, ts !! i = Some a -> ts !! (S i) = Some b -> a <= b.
Proof.
  induction ts as [|a ts IH]; [split; [intros _ i ? ? H; discriminate | reflexivity]|].
  destruct ts as [|b ts].
  - split; [intros _ [|i] ? ? _ H; discriminate | reflexivity].
  - change (monotonic (map Some (a :: b :: ts)))
      with ((a <=? b) && monotonic (map Some (b :: ts))).
    rewrite andb_true_iff, IH, Z.leb_le. split.
    + intros [Hab Hrest] [|i] x y Hx Hy.
      * simpl in Hx, Hy. congruence.
      * exact (Hrest i x y Hx Hy).
    + intros H. split; [exact (H 0%nat a b eq_refl eq_refl)|].
      intros i x y Hx Hy. exact (H (S i) x y Hx Hy).
Qed.

Lemma ascending_map (ts : list Z) :
  ascending (map Some ts) <->
  forall i a b, ts !! i = Some a -> ts !! (S i) = Some b -> a <= b.
Proof.
  unfold ascending. split; intros H i a b Ha Hb.
  - apply (H i); rewrite list_lookup_fmap; [rewrite Ha | rewrite Hb]; reflexivity.
  - rewrite list_lookup_fmap in Ha, Hb.
    destruct (ts !! i) as [x|] eqn:Ex; [|discriminate].
    destruct (ts !! S i) as [y|] eqn:Ey; [|discriminate].
    simpl in Ha, Hb. injection Ha as ->. injection Hb as ->.
    exact (H i a b Ex Ey).
Qed.

Lemma monotonic_checked (s : Series) :
  ~ In None (values s) ->
  (is_monotonic_increasing s = true <-> ascending (values s)).
Proof.
  intros H. destruct (present_values _ H) as [ts E].
  unfold is_monotonic_increasing. rewrite E, monotonic_spec, ascending_map. tauto.
Qed.

Lemma all_isna (s : Series) :
  all (isna s) = true <-> forall v, In v (values s) -> v = None.
Proof.
  unfold all, isna. induction (values s) as [|v l IH]; simpl.
  - split; [tauto | reflexivity].
  - destruct v; simpl.
    + split; [discriminate|]. intros H. specialize (H _ (or_introl eq_refl)). discriminate.
    + rewrite IH. split; [intros H v [<-|Hv]; auto | auto].
Qed.

Lemma prices_checked (df : DataFrame) :
  forallb (has_column df) REQUIRED_COLS = true ->
  (forallb (price_present df) OHLC = false <-> price_all_missing df).
Proof.
  intros Hcols. unfold price_all_missing. split.
  - intros H.
    assert (Hex : exists c, In c OHLC /\ price_present df c = false).
    { induction OHLC as [|c cs IH]; [discriminate|].
      simpl in H. destruct (price_present df c) eqn:Hc.
      - destruct (IH H) as [c' [? ?]]. exists c'. split; [right|]; assumption.
      - exists c. split; [left; reflexivity | exact Hc]. }
    destruct Hex as [c [Hin Hc]]. unfold price_present in Hc.
    pose proof (required_get df c Hcols (OHLC_required c Hin)) as Hg.
    destruct (get (columns df) c) as [col|] eqn:E; [|congruence].
    exists c, col. split; [exact Hin|]. split; [exact E|].
    apply all_isna, negb_false_iff, Hc.
  - intros [c [col [Hin [Hg Hall]]]]. apply not_true_iff_false. intros H.
    pose proof (proj1 (forallb_forall _ _) H c Hin) as Hc.
    unfold price_present in Hc. rewrite Hg in Hc.
    apply all_isna in Hall. rewrite Hall in Hc. discriminate.
Qed.

(** The checks fail exactly on the frames the specification calls
    invalid. *)
Lemma checks_invalid (df : DataFrame) : checks df = false <-> invalid df.
Proof.
  unfold checks, invalid, time_missing, time_duplicate, time_unordered, time_values.
  destruct (forallb (has_column df) REQUIRED_COLS) eqn:Hcols.
  2:{ split; [intros _; left; apply columns_checked, Hcols | reflexivity]. }
  assert (Habs : ~ column_absent df).
  { intros H. apply columns_checked in H. congruence. }
  pose proof (required_get df (py "time") Hcols ltac:(left; reflexivity)) as Ht.
  destruct (get (columns df) (py "time")) as [time|]; [clear Ht | congruence].
  pose proof (empty_checked df) as He.
  pose proof (isna_checked time) as Hn.
  pose proof (duplicated_checked time) as Hd.
  pose proof (monotonic_checked time) as Hm.
  pose proof (prices_checked df Hcols) as Hp.
  destruct (empty df); cbn [negb andb].
  { split; [intros _; right; left; apply He; reflexivity | reflexivity]. }
  assert (Hne : ~ frame_empty df) by (intros H; apply He in H; discriminate).
  destruct (any (isna time)); cbn [negb andb].
  { split; [intros _; right; right; left; apply Hn; reflexivity | reflexivity]. }
  assert (Hnn : ~ In None (values time)) by (intros H; apply Hn in H; discriminate).
  destruct (sum (duplicated time) =? 0)%nat; cbn [negb andb].
  2:{ split; [intros _ | reflexivity]. do 3 right. left.
      intros H. apply Hd in H. discriminate. }
  assert (Hnd : NoDup (values time)) by (apply Hd; reflexivity).
  specialize (Hm Hnn).
  destruct (is_monotonic_increasing time); cbn [negb andb].
  2:{ split; [intros _ | reflexivity]. do 4 right. left.
      intros H. apply Hm in H. discriminate. }
  assert (Hasc : ascending (values time)) by (apply Hm; reflexivity).
  rewrite Hp. split; [intros H; do 5 right; exact H|].
  intros [H|[H|[H|[H|[H|H]]]]]; tauto.
Qed.

(** Without duplicates, ascending is strictly ascending. *)
Lemma strictly_ascending_from (l : list (option Z)) :
  ~ In None l -> NoDup l -> ascending l -> strictly_ascending l.
Proof.
  intros Hn Hnd Hasc. destruct (present_values l Hn) as [ts ->].
  exists ts. split; [reflexivity|].
  intros i a b Ha Hb.
  assert (a <= b) by (apply (proj1 (ascending_map ts) Hasc i); assumption).
  assert (a <> b).
  { intros ->. apply (NoDup_fmap_1 Some) in Hnd.
    pose proof (NoDup_lookup ts i (S i) b Hnd Ha Hb). lia. }
  lia.
Qed.

Lemma checks_strictly_ascending (df : DataFrame) :
  checks df = true ->
  exists time, get (columns df) (py "time") = Some time
               /\ strictly_ascending (values time).
Proof.
  unfold checks. intros H.
  repeat (apply andb_true_iff in H as [H ?]).
  destruct (get (columns df) (py "time")) as [time|]; [|discriminate].
  match goal with
  | H' : _ && _ && _ = true |- _ =>
      apply andb_true_iff in H' as [H' Hm]; apply andb_true_iff in H' as [Hn Hd]
  end.
  exists time. split; [reflexivity|].
  assert (Hnn : ~ In None (values time)).
  { intros Hin. apply isna_checked in Hin. rewrite Hin in Hn. discriminate. }
  apply strictly_ascending_from; [exact Hnn | apply duplicated_checked, Hd |].
  apply monotonic_checked; assumption.
Qed.

End ValidateProofs.

(** ** C2 *)


(** ** C3 *)

(** C3.  On every frame on which [validate_tohlcv] returns without raising,
    the time column is strictly ascending: every timestamp is strictly
    greater than the one before it. *)
Theorem validated_time_strictly_ascending (df : Pandas.DataFrame) :
  fst (Validate.validate_tohlcv df) = Ok tt ->
  exists time, Pandas.get (Pandas.columns df) (py "time") = Some time
               /\ ValidateSpec.strictly_ascending (Pandas.values time).
Proof.
  intros Hok. destruct (validate_run df) as [_ Hbad].
  apply checks_strictly_ascending.
  destruct (ValidateSpec.checks df); [reflexivity|].
  destruct (Hbad eq_refl) as [m Hm]. rewrite Hm in Hok. discriminate.
Qed.

(* ===================================================================== *)
(** * The download and its normalisation *)
(* ===================================================================== *)

Section YahooProofs.

Import Pandas Yahoo YahooSpec.

Lemma strip_nil (q : Py.char -> bool) (s : pystr) :
  Py.strip q s = [] <-> forallb q s = true.
Proof.
  split; [|apply strip_all].
  intros E. destruct (strip_infix q s) as [a [b [Es [Ha Hb]]]].
  rewrite Es, E, !forallb_app, Ha, Hb. reflexivity.
Qed.

(** A ticker is blank when it is empty or all whitespace. *)
Lemma blank_ticker (t : pystr) :
  Py.truthy (Py.strip Py.isspace t) = negb (forallb Py.isspace t).
Proof.
  destruct (forallb Py.isspace t) eqn:H.
  - apply strip_nil in H. rewrite H. reflexivity.
  - apply truthy_nonempty. intros E. apply strip_nil in E. congruence.
Qed.

Variable provider : Request -> option RawFrame.

(** [fetch_tohlcv_yahoo], run. *)
Lemma fetch_run (ticker interval : pystr) (start end_ period : option pystr)
    (auto_adjust prepost : bool) (timeout : Z) (w : World) :
  let t := Py.strip Py.isspace ticker in
  let r := request_for t interval start end_ period auto_adjust prepost timeout in
  let w' := mkWorld (r :: requests w) (fs w) (console w) in
  fetch_tohlcv_yahoo provider ticker interval start end_ period auto_adjust prepost timeout w
  = if forallb Py.isspace ticker then (Raise (ValueError EmptyTicker), w)
    else match provider r with
         | None => (Raise (RuntimeError (NoData t interval)), w')
         | Some df =>
             if raw_empty df then (Raise (RuntimeError (NoData t interval)), w')
             else (normalize t df, w')
         end.
Proof.
  cbv zeta. unfold fetch_tohlcv_yahoo. rewrite blank_ticker, negb_involutive.
  destruct (forallb Py.isspace ticker); [reflexivity|].
  unfold bind, yf_download, request_for, raise, lift.
  destruct start, end_; cbn [fst snd];
    match goal with |- context [provider ?r] => destruct (provider r) as [df|] end;
    try reflexivity; destruct (raw_empty df); reflexivity.
Qed.

End YahooProofs.

(** ** C8 *)

(** C8.  [fetch_tohlcv_yahoo] raises a [ValueError] whenever the ticker is
    empty or all whitespace, and no request has been made by then; and for
    any other ticker it raises a [RuntimeError] whenever the provider
    returns no data (a missing or an empty frame) to the one request made,
    whatever the normalisation would have done with that frame. *)
Theorem fetch_raises (provider : Request -> option Pandas.RawFrame)
    (ticker interval : pystr) (start end_ period : option pystr)
    (auto_adjust prepost : bool) (timeout : Z) (w : World) :
  let run := Yahoo.fetch_tohlcv_yahoo provider ticker interval start end_ period
               auto_adjust prepost timeout w in
  let t := Py.strip Py.isspace ticker in
  let r := YahooSpec.request_for t interval start end_ period auto_adjust prepost timeout in
  (forallb Py.isspace ticker = true -> run = (Raise (ValueError EmptyTicker), w))
  /\ (forallb Py.isspace ticker = false ->
      YahooSpec.no_data (provider r) ->
      run = (Raise (RuntimeError (NoData t interval)),
             mkWorld (r :: requests w) (fs w) (console w))).
Proof.
  cbv zeta. rewrite fetch_run. cbv zeta. split; intros Hb.
  - rewrite Hb. reflexivity.
  - rewrite Hb. intros [E|[f [E Hf]]]; rewrite E; [reflexivity|].
    rewrite Hf. reflexivity.
Qed.

Section NormalizeProofs.

Import Pandas Yahoo YahooSpec.

Lemma eqb_refl (a : pystr) : Py.eqb a a = true.
Proof. apply eqb_eq. reflexivity. Qed.

(** *** Sorting rows *)

Lemma insert_row_perm (k : option Z) (i : nat) (l : list (option Z * nat)) :
  Permutation (insert_row k i l) ((k, i) :: l).
Proof.
  induction l as [|[k' i'] l IH]; simpl; [reflexivity|].
  destruct (key_le k' k); [|reflexivity].
  rewrite IH. apply perm_swap.
Qed.

Lemma fold_insert_perm (l acc : list (option Z * nat)) :
  Permutation (fold_left (fun acc ki => insert_row (fst ki) (snd ki) acc) l acc) (acc ++ l).
Proof.
  revert acc. induction l as [|[k i] l IH]; intros acc; simpl.
  - rewrite app_nil_r. reflexivity.
  - rewrite IH, insert_row_perm. simpl. apply Permutation_middle.
Qed.

Lemma snd_combine_seq {A} (keys : list A) (start : nat) :
  map snd (combine keys (seq start (length keys))) = seq start (length keys).
Proof.
  revert start. induction keys as [|k keys IH]; intros start; [reflexivity|].
  simpl. rewrite IH. reflexivity.
Qed.

(** [argsort] lists every row number once. *)
Lemma argsort_perm (keys : list (option Z)) :
  Permutation (argsort keys) (seq 0 (length keys)).
Proof.
  unfold argsort. rewrite fold_insert_perm. simpl. rewrite snd_combine_seq. reflexivity.
Qed.

(** *** Renaming *)

Lemma get_In (cols : list (pystr * Series)) (c : pystr) (s : Series) :
  get cols c = Some s -> In c (map fst cols).
Proof.
  induction cols as [|[k s0] cols IH]; simpl; [discriminate|].
  destruct (Py.eqb k c) eqn:E; [apply eqb_eq in E; auto | auto].
Qed.

(** While the renamed labels stay distinct, a column is found under its
    new name. *)
Lemma get_rename (m : list (pystr * pystr)) (cols : list (pystr * Series))
    (c : pystr) (s : Series) :
  NoDup (map fst (rename m cols)) ->
  get cols c = Some s ->
  get (rename m cols) (rename_label m c) = Some s.
Proof.
  induction cols as [|[k s0] cols IH]; simpl; [discriminate|].
  intros Hnd Hg. apply NoDup_cons in Hnd as [Hk Hnd].
  destruct (Py.eqb k c) eqn:E.
  - apply eqb_eq in E. subst k. rewrite eqb_refl. exact Hg.
  - destruct (Py.eqb (rename_label m k) (rename_label m c)) eqn:E'; [|auto].
    exfalso. apply Hk. apply eqb_eq in E'. rewrite E'.
    apply list_elem_of_In. unfold rename. rewrite map_map. simpl.
    apply in_map_iff. apply get_In in Hg. apply in_map_iff in Hg as [[k' s'] [<- Hin]].
    exists (k', s'). auto.
Qed.

(** *** Selecting a ticker *)

Lemma xs_nonempty (cs : list ((pystr * pystr) * Series)) (k : pystr) :
  In k (tickers cs) -> xs cs k <> [].
Proof.
  unfold tickers, get_level_values_last, xs.
  induction cs as [|[[f t] s] cs IH]; simpl; [tauto|].
  destruct (Py.eqb t k) eqn:E; [discriminate|].
  intros [->|H]; [rewrite eqb_refl in E; discriminate | auto].
Qed.

Lemma existsb_eqb (t : pystr) (l : list pystr) :
  existsb (Py.eqb t) l = true <-> In t l.
Proof.
  rewrite existsb_exists. split.
  - intros [x [Hin E]]. apply eqb_eq in E. subst. exact Hin.
  - intros H. exists t. split; [exact H | apply eqb_refl].
Qed.

(** The ticker the [MultiIndex] block settles on. *)
Lemma flatten_multi (t : pystr) (cs : list ((pystr * pystr) * Series)) :
  cs <> [] ->
  exists chosen,
    flatten_columns t (MultiIndex cs) = Ok (xs cs chosen)
    /\ In chosen (tickers cs)
    /\ (In t (tickers cs) -> chosen = t)
    /\ (~ In t (tickers cs) -> head (tickers cs) = Some chosen).
Proof.
  intros Hne. unfold flatten_columns. fold (tickers cs).
  destruct (existsb (Py.eqb t) (tickers cs)) eqn:E.
  - apply existsb_eqb in E. exists t.
    split; [reflexivity|]. split; [exact E|]. split; [reflexivity|].
    intros H. exfalso. exact (H E).
  - assert (Hn : ~ In t (tickers cs)).
    { intros H. apply existsb_eqb in H. congruence. }
    destruct cs as [|[[f k] s] cs]; [congruence|].
    exists k. split; [reflexivity|]. split; [left; reflexivity|].
    split; [intros H; exfalso; exact (Hn H) | reflexivity].
Qed.

(** *** The normalisation, run *)

Lemma normalize_utc_ok (idx : Series) :
  exists idx',
    normalize_utc idx = Ok idx'
    /\ match tz idx with
       | None => tz_localize_utc idx
       | Some _ => tz_convert_utc idx
       end = Ok idx'
    /\ tz idx' = Some UTC /\ values idx' = values idx.
Proof.
  unfold normalize_utc, tz_localize_utc, tz_convert_utc.
  destruct (tz idx); eexists; repeat split; reflexivity.
Qed.

Lemma normalize_run (t : pystr) (df : RawFrame) (flat : list (pystr * Series))
    (idx : Series) :
  flatten_columns t (raw_columns df) = Ok flat ->
  normalize_utc (raw_index df) = Ok idx ->
  normalize t df =
  Ok (mkFrame (RangeIndex (len idx)) (out_columns idx (rename RENAME flat))).
Proof.
  intros Hf Hi. unfold normalize. rewrite Hf, Hi.
  unfold sort_values_reset. cbn [columns get]. rewrite eqb_refl. reflexivity.
Qed.

Local Ltac decide_labels :=
  repeat match goal with
         | |- context [Py.eqb (Py.lit ?a) (Py.lit ?b)] =>
             let v := eval vm_compute in (Py.eqb (Py.lit a) (Py.lit b)) in
             change (Py.eqb (Py.lit a) (Py.lit b)) with v
         end.

Lemma to_numeric_values (s : Series) : values (to_numeric s) = values s.
Proof.
  unfold to_numeric. simpl. rewrite <- (map_id (values s)) at 2.
  apply map_ext. intros [x|]; reflexivity.
Qed.

(** A renamed provider column sits in the output under its schema name,
    its rows permuted like the timestamps. *)
Lemma out_columns_get (idx : Series) (cols : list (pystr * Series))
    (P c : pystr) (s : Series) :
  In (P, c) SCHEMA ->
  get cols c = Some s ->
  exists s', get (out_columns idx cols) c = Some s'
             /\ values s' = values (take (argsort (values idx)) s).
Proof.
  unfold SCHEMA. simpl. intros Hin Hg.
  destruct Hin as [E|[E|[E|[E|[E|[]]]]]]; injection E as <- <-;
    unfold out_columns; cbn [get]; decide_labels; cbv iota; rewrite Hg;
    eexists; (split; [reflexivity|]); try reflexivity.
  unfold take. cbn [values column_or_none]. rewrite to_numeric_values. reflexivity.
Qed.

End NormalizeProofs.

(** ** C5 *)

(** C5, as the code has it.  For every provider response whose columns form a
    two-level index, [fetch_tohlcv_yahoo] reduces the columns to those of one
    ticker before it builds the output frame: the requested ticker (the
    argument without surrounding whitespace) when the response has columns
    for it, and otherwise the first ticker of the response.  The call then
    goes on as if the provider had sent that ticker's flat columns. *)
Theorem fetch_multiindex_ticker (provider : Request -> option Pandas.RawFrame)
    (ticker interval : pystr) (start end_ period : option pystr)
    (auto_adjust prepost : bool) (timeout : Z) (w : World)
    (idx : Pandas.Series) (cs : list ((pystr * pystr) * Pandas.Series)) :
  let t := Py.strip Py.isspace ticker in
  let r := YahooSpec.request_for t interval start end_ period auto_adjust prepost timeout in
  forallb Py.isspace ticker = false ->
  provider r = Some (Pandas.mkRaw idx (Pandas.MultiIndex cs)) ->
  Pandas.raw_empty (Pandas.mkRaw idx (Pandas.MultiIndex cs)) = false ->
  exists chosen,
    (In t (YahooSpec.tickers cs) -> chosen = t)
    /\ (~ In t (YahooSpec.tickers cs) -> head (YahooSpec.tickers cs) = Some chosen)
    /\ Yahoo.fetch_tohlcv_yahoo provider ticker interval start end_ period
         auto_adjust prepost timeout w
       = Yahoo.fetch_tohlcv_yahoo
           (fun _ => Some (Pandas.mkRaw idx (Pandas.Index (Pandas.xs cs chosen))))
           ticker interval start end_ period auto_adjust prepost timeout w.
Proof.
  cbv zeta. intros Hb Hp He.
  assert (Hcs : cs <> []).
  { intros ->. unfold Pandas.raw_empty in He. simpl in He.
    rewrite orb_true_r in He. discriminate. }
  destruct (flatten_multi (Py.strip Py.isspace ticker) cs Hcs)
    as [chosen [Hf [Hin [H1 H2]]]].
  exists chosen. split; [exact H1|]. split; [exact H2|].
  rewrite !fetch_run. cbv zeta. rewrite Hb, Hp, He.
  assert (He' : Pandas.raw_empty (Pandas.mkRaw idx (Pandas.Index (Pandas.xs cs chosen)))
                = false).
  { unfold Pandas.raw_empty in *. simpl in *.
    apply orb_false_iff in He as [He _]. rewrite He. simpl.
    pose proof (xs_nonempty cs chosen Hin) as Hx.
    destruct (Pandas.xs cs chosen); [congruence | reflexivity]. }
  rewrite He'. unfold Yahoo.normalize. cbn [Pandas.raw_columns Pandas.raw_index].
  rewrite Hf. reflexivity.
Qed.

(** ** C6 *)


(* ===================================================================== *)
(** * The command line *)
(* ===================================================================== *)

Section FixSameDay.

Import Calendar Cli CliSpec.

Variable isoparse : pystr -> option datetime.

Lemma parse_valid (s : pystr) (d : date) :
  _parse_date_yyyy_mm_dd isoparse s = Some d -> valid d = true.
Proof.
  unfold _parse_date_yyyy_mm_dd, mk. destruct (isoparse s) as [dt|]; [|discriminate].
  destruct (valid _) eqn:E; [|discriminate]. intros [= <-]. exact E.
Qed.

Lemma truthy_some (s : pystr) : Cli.truthy (Some s) = true <-> s <> [].
Proof. apply truthy_nonempty. Qed.

(** The three ways [_fix_same_day_range] ends. *)
Lemma fix_same_day_range_run (start end_ : option pystr) :
  (forall s e d,
      start = Some s -> end_ = Some e ->
      denotes isoparse s d -> denotes isoparse e d ->
      _fix_same_day_range isoparse start end_ =
      match add_days d 1 with
      | Ok d' => Ok (start, Some (isoformat d'),
                     Some (same_day_warning e (isoformat d')))
      | Raise ex => Raise ex
      end)
  /\ (~ same_day isoparse start end_ ->
      _fix_same_day_range isoparse start end_ = Ok (start, end_, None)).
Proof.
  unfold _fix_same_day_range. split.
  - intros s e d -> -> [Hs Ps] [He Pe].
    apply truthy_some in Hs, He. rewrite Hs, He, Ps, Pe. cbn [negb orb].
    rewrite (proj2 (date_eqb_eq d d) eq_refl). reflexivity.
  - intros Hno.
    destruct start as [s|]; [|reflexivity].
    destruct end_ as [e|]; [|destruct (Cli.truthy (Some s)); reflexivity].
    destruct (Cli.truthy (Some s)) eqn:Hs; [|reflexivity].
    destruct (Cli.truthy (Some e)) eqn:He; [|reflexivity].
    cbn [negb orb]. apply truthy_some in Hs, He.
    destruct (_parse_date_yyyy_mm_dd isoparse s) as [ds|] eqn:Ps; [|reflexivity].
    destruct (_parse_date_yyyy_mm_dd isoparse e) as [de|] eqn:Pe; [|reflexivity].
    destruct (date_eqb ds de) eqn:E; [|reflexivity].
    apply date_eqb_eq in E. subst de. exfalso. apply Hno.
    exists s, e, ds. unfold denotes. auto.
Qed.

End FixSameDay.

(** ** C1 *)


Section SavedPaths.

Import Pandas Cli CliSpec.

Lemma quiet_ret {A} (a : A) : quiet (ret a).
Proof. intros w. reflexivity. Qed.

Lemma quiet_raise {A} (e : exn) : quiet (@raise A e).
Proof. intros w. reflexivity. Qed.

Lemma quiet_lift {A} (r : result A) : quiet (lift r).
Proof. intros w. reflexivity. Qed.

Lemma quiet_bind {A B} (c : M A) (k : A -> M B) :
  quiet c -> (forall a, quiet (k a)) -> quiet (bind c k).
Proof.
  intros Hc Hk w. unfold bind. specialize (Hc w).
  destruct (c w) as [[a|e] w']; simpl in *; [rewrite Hk|]; exact Hc.
Qed.

Lemma quiet_try {A} (c : M A) (h : exn -> M A) :
  quiet c -> (forall e, quiet (h e)) -> quiet (try_except c h).
Proof.
  intros Hc Hh w. unfold try_except. specialize (Hc w).
  destruct (c w) as [[a|e] w']; simpl in *; [|rewrite Hh]; exact Hc.
Qed.

Lemma quiet_print (e : Event) :
  (forall p, e <> PrintSaved p) -> quiet (print e).
Proof.
  intros He w. unfold print, saved_paths. simpl.
  destruct e; try reflexivity. exfalso. exact (He p eq_refl).
Qed.

Lemma quiet_mkdir (p : Pathlib.Path) : quiet (mkdir_p p).
Proof. intros w. unfold mkdir_p. destruct (Pathlib.mkdir_p (fs w) p); reflexivity. Qed.

Lemma quiet_write (p : Pathlib.Path) (f : Pathlib.File) : quiet (write_file p f).
Proof. intros w. unfold write_file. destruct (Pathlib.write (fs w) p f); reflexivity. Qed.

Lemma quiet_if {A} (b : bool) (c1 c2 : M A) : quiet c1 -> quiet c2 -> quiet (if b then c1 else c2).
Proof. destruct b; auto. Qed.

Lemma quiet_save_df (df : DataFrame) (p : Pathlib.Path) : quiet (Io.save_df df p).
Proof.
  unfold Io.save_df. apply quiet_bind; [apply quiet_mkdir|]. intros _.
  repeat apply quiet_if; auto using quiet_write, quiet_raise.
Qed.

Lemma quiet_fetch (provider : Request -> option RawFrame)
    (ticker interval : pystr) (start end_ period : option pystr)
    (auto_adjust prepost : bool) (timeout : Z) :
  quiet (Yahoo.fetch_tohlcv_yahoo provider ticker interval start end_ period
           auto_adjust prepost timeout).
Proof.
  intros w. rewrite fetch_run. cbv zeta.
  destruct (forallb Py.isspace ticker); [reflexivity|].
  destruct (provider _) as [df|]; [|reflexivity].
  destruct (raw_empty df); reflexivity.
Qed.

Lemma saves_only_quiet {A} (q : Pathlib.Path) (c : M A) : quiet c -> saves_only q c.
Proof. intros H w. left. apply H. Qed.

Lemma saves_only_bind {A B} (q : Pathlib.Path) (c : M A) (k : A -> M B) :
  quiet c -> (forall a, saves_only q (k a)) -> saves_only q (bind c k).
Proof.
  intros Hc Hk w. unfold bind. specialize (Hc w).
  destruct (c w) as [[a|e] w']; simpl in *.
  - rewrite <- Hc. apply Hk.
  - left. exact Hc.
Qed.

Lemma saves_only_bind_quiet {A B} (q : Pathlib.Path) (c : M A) (k : A -> M B) :
  saves_only q c -> (forall a, quiet (k a)) -> saves_only q (bind c k).
Proof.
  intros Hc Hk w. unfold bind. specialize (Hc w).
  destruct (c w) as [[a|e] w']; simpl in *; [rewrite Hk|]; exact Hc.
Qed.

(** Binding a computation that can only return [a]. *)
Lemma saves_only_bind_value {A B} (q : Pathlib.Path) (a : A) (c : M A) (k : A -> M B) :
  quiet c -> returns_only a c -> saves_only q (k a) -> saves_only q (bind c k).
Proof.
  intros Hc Hr Hk w. unfold bind. pose proof (Hc w) as Hq. pose proof (Hr w) as Hv.
  destruct (c w) as [[x|e] w']; simpl in *.
  - rewrite (Hv x w' eq_refl), <- Hq. apply Hk.
  - left. exact Hq.
Qed.

Lemma returns_only_ret {A} (a : A) : returns_only a (ret a).
Proof. intros w x w' [= <- _]. reflexivity. Qed.

Lemma returns_only_build (ticker interval start_tag end_tag ext : pystr)
    (root : Pathlib.Path) :
  returns_only
    (root ++ [Spec.S ticker; py "tohlcv"; Spec.S interval]
          ++ Pathlib.segment_parts (Spec.S start_tag ++ py "_" ++ Spec.S end_tag ++ ext))
    (Io.build_outpath_fixed ticker interval start_tag end_tag ext root).
Proof.
  rewrite build_outpath_fixed_run. cbv zeta. intros w x w'. unfold bind, ret.
  destruct (mkdir_p _ w) as [[[]|e] w1]; [|discriminate].
  intros [= <- _]. rewrite <- app_assoc. reflexivity.
Qed.

Lemma quiet_build (ticker interval start_tag end_tag ext : pystr) (root : Pathlib.Path) :
  quiet (Io.build_outpath_fixed ticker interval start_tag end_tag ext root).
Proof.
  rewrite build_outpath_fixed_run. cbv zeta.
  apply quiet_bind; [apply quiet_mkdir | intros; apply quiet_ret].
Qed.

(** Saving under a known path reports that path or nothing. *)
Lemma saves_only_store (df : DataFrame) (q : Pathlib.Path) :
  saves_only q (Io.save_df df q ;; print (PrintSaved q)).
Proof.
  intros w. unfold bind. pose proof (quiet_save_df df q w) as H.
  destruct (Io.save_df df q w) as [[[]|e] w']; simpl in *.
  - right. unfold saved_paths in *. simpl. rewrite H. reflexivity.
  - left. exact H.
Qed.

End SavedPaths.

Section MainProofs.

Import Pandas Cli CliSpec.

Variable isoparse : pystr -> option Calendar.datetime.
Variable answers : Answers.
Variable cwd : Pathlib.Path.

Lemma bind_lift_ok {A B} (a : A) (k : A -> M B) (w : World) :
  bind (lift (Ok a)) k w = k a w.
Proof. reflexivity. Qed.

Lemma bind_ret {A B} (a : A) (k : A -> M B) : bind (ret a) k = k a.
Proof. reflexivity. Qed.

Lemma quiet_tags (df : DataFrame) : quiet (data_tags df).
Proof.
  unfold data_tags.
  repeat (apply quiet_bind; [apply quiet_lift | intros ?]). apply quiet_ret.
Qed.

(** The [if not no_save:] block reports the path of the request, when the
    request has one. *)
Lemma save_saves_only (args : Args) (p : Params) (start end_ : option pystr)
    (df : DataFrame) (q : Pathlib.Path) :
  (if Cli.truthy (out args) then Some (Pathlib.resolve cwd (given (out args)))
   else fixed_path p start end_) = Some q ->
  saves_only q (save cwd args p start end_ df).
Proof.
  intros Hq. unfold save.
  destruct (Cli.truthy (out args)) eqn:Hout.
  - (* an explicit output path *)
    injection Hq as <-.
    apply saves_only_bind.
    + apply quiet_if; [apply quiet_ret | apply quiet_tags].
    + intros [st et]. rewrite bind_ret. apply saves_only_store.
  - (* the fixed layout *)
    unfold fixed_path in Hq.
    destruct (Cli.truthy start && Cli.truthy end_); [|discriminate].
    injection Hq as <-. rewrite bind_ret.
    eapply saves_only_bind_value;
      [apply quiet_build | apply returns_only_build | apply saves_only_store].
Qed.

Lemma isoformat_truthy (d : Calendar.date) : Py.truthy (Calendar.isoformat d) = true.
Proof.
  apply truthy_nonempty. unfold Calendar.isoformat. simpl. discriminate.
Qed.

(** The same-day fix keeps given values given. *)
Lemma fix_keeps_given (start end_ start' end' warn : option pystr) :
  _fix_same_day_range isoparse start end_ = Ok (start', end', warn) ->
  Cli.truthy start = true -> Cli.truthy end_ = true ->
  Cli.truthy start' = true /\ Cli.truthy end' = true.
Proof.
  unfold _fix_same_day_range. intros H Hs He. rewrite Hs, He in H. cbn [negb orb] in H.
  destruct start as [s|]; [|discriminate]. destruct end_ as [e|]; [|discriminate].
  destruct (_parse_date_yyyy_mm_dd isoparse s); [|injection H as <- <- _; auto].
  destruct (_parse_date_yyyy_mm_dd isoparse e); [|injection H as <- <- _; auto].
  destruct (Calendar.date_eqb _ _); [|injection H as <- <- _; auto].
  destruct (Calendar.add_days _ 1); [|discriminate].
  injection H as <- <- _. split; [exact Hs | apply isoformat_truthy].
Qed.

(** When an output path is given, or start and end both are, the request
    has a path as soon as the same-day fix goes through. *)
Lemma request_path_some (args : Args) (fixed : option pystr * option pystr * option pystr) :
  let p := params answers args in
  Cli.truthy (out args) = true
  \/ (Cli.truthy (p_start p) = true /\ Cli.truthy (p_end p) = true) ->
  _fix_same_day_range isoparse (p_start p) (p_end p) = Ok fixed ->
  exists q, request_path isoparse answers cwd args = Some q.
Proof.
  cbv zeta. intros Hc Hfix. unfold request_path. rewrite Hfix.
  destruct fixed as [[start' end'] warn].
  destruct (Cli.truthy (out args)); [eexists; reflexivity|].
  destruct Hc as [Hc|[Hs He]]; [discriminate|].
  destruct (fix_keeps_given _ _ _ _ _ Hfix Hs He) as [Hs' He'].
  unfold fixed_path. rewrite Hs', He'. eexists. reflexivity.
Qed.

Variable provider : Request -> option RawFrame.

Lemma quiet_download (args : Args) (p : Params) (start end_ : option pystr) :
  quiet (download_and_validate provider args p start end_).
Proof.
  unfold download_and_validate.
  apply quiet_bind; [apply quiet_fetch | intros df].
  apply quiet_bind; [apply quiet_lift | intros; apply quiet_ret].
Qed.

(** A run whose same-day fix raises ends there. *)
Lemma main_fix_raise (args : Args) (ex : exn) (w : World) :
  _fix_same_day_range isoparse (p_start (params answers args))
    (p_end (params answers args)) = Raise ex ->
  main isoparse provider answers cwd args w = (Raise ex, w).
Proof. intros H. unfold main. cbv zeta. rewrite H. reflexivity. Qed.

(** A run reports the path of its request or nothing. *)
Lemma main_saves_only (args : Args) (q : Pathlib.Path) :
  request_path isoparse answers cwd args = Some q ->
  saves_only q (main isoparse provider answers cwd args).
Proof.
  unfold request_path, main. cbv zeta.
  destruct (_fix_same_day_range isoparse _ _) as [[[start' end'] warn]|ex];
    [|discriminate].
  intros Hq w. rewrite bind_lift_ok. revert w.
  apply saves_only_bind.
  { apply quiet_if; [apply quiet_print; discriminate | apply quiet_ret]. }
  intros _. apply saves_only_bind.
  { apply quiet_try.
    - apply quiet_bind; [apply quiet_download | intros; apply quiet_ret].
    - intros e. apply quiet_bind; [apply quiet_print; discriminate | intros; apply quiet_ret]. }
  intros [df|]; [|apply saves_only_quiet, quiet_ret].
  repeat (apply saves_only_bind; [apply quiet_lift | intros ?]).
  apply saves_only_bind; [apply quiet_print; discriminate | intros _].
  apply saves_only_bind_quiet; [|intros; apply quiet_ret].
  destruct (negb _); [|apply saves_only_quiet, quiet_ret].
  apply save_saves_only. exact Hq.
Qed.

End MainProofs.

(** ** C7 *)


(* ===================================================================== *)
(** * The theorems at work, and where the specification goes too far *)
(* ===================================================================== *)

Section Instances.

Import Pandas Cli Sample.

(** ** C1 *)



(** ** C2 and C3 *)


Lemma validated_time_strictly_ascending_witness :
  fst (Validate.validate_tohlcv good) = Ok tt
  /\ exists time, get (columns good) (py "time") = Some time
                  /\ ValidateSpec.strictly_ascending (values time).
Proof.
  split; [reflexivity|].
  apply (validated_time_strictly_ascending good). reflexivity.
Defined.

(** ** C4 *)

Lemma build_outpath_fixed_path_witness :
  exists w',
    Io.build_outpath_fixed (py "BTC-USD") (py "1h") (py "2025-01-01") (py "2026-01-01")
      (py ".parquet") Io.FIXED_DATA_ROOT world0
    = (Ok (Io.FIXED_DATA_ROOT
           ++ [py "BTC_USD"; py "tohlcv"; py "1h"; py "2025_01_01_2026_01_01.parquet"]),
       w').
Proof.
  destruct (build_outpath_fixed_path (py "BTC-USD") (py "1h") (py "2025-01-01")
              (py "2026-01-01") (py ".parquet") Io.FIXED_DATA_ROOT world0) as [H _].
  destruct (H ltac:(vm_compute; reflexivity)) as [w' [Hrun _]].
  exists w'. exact Hrun.
Defined.

(** ** C5 *)

(** AAPL is asked for, the response only has MSFT: MSFT it is. *)
Lemma fetch_multiindex_ticker_witness :
  exists chosen,
    (~ In (py "AAPL") (YahooSpec.tickers msft_columns) ->
     head (YahooSpec.tickers msft_columns) = Some chosen)
    /\ Yahoo.fetch_tohlcv_yahoo (always msft_only) (py "AAPL") (py "1d")
         None None None false false 30 world0
       = Yahoo.fetch_tohlcv_yahoo
           (fun _ => Some (mkRaw (raw_index msft_only) (Index (xs msft_columns chosen))))
           (py "AAPL") (py "1d") None None None false false 30 world0.
Proof.
  destruct (fetch_multiindex_ticker (always msft_only) (py "AAPL") (py "1d")
              None None None false false 30 world0
              (raw_index msft_only) msft_columns eq_refl eq_refl eq_refl)
    as [chosen [_ [H1 H2]]].
  exists chosen. split; [exact H1 | exact H2].
Defined.

(** The response has no column of the requested ticker AAPL, and the frame
    that comes back carries the prices of MSFT: the columns were not
    reduced to those of the requested ticker. *)
Lemma fetch_multiindex_other_ticker :
  xs msft_columns (py "AAPL") = []
  /\ exists out w',
       Yahoo.fetch_tohlcv_yahoo (always msft_only) (py "AAPL") (py "1d")
         None None None false false 30 world0 = (Ok out, w')
       /\ get (columns out) (py "open") = Some (series [10; 11])
       /\ get (xs msft_columns (py "MSFT")) (py "Open") = Some (series [10; 11]).
Proof.
  split; [reflexivity|]. eexists. eexists. split; [vm_compute; reflexivity|].
  split; vm_compute; reflexivity.
Qed.

(** ** C6 *)


(** ** C7 *)



(** ** C8 *)

Lemma fetch_raises_witness :
  Yahoo.fetch_tohlcv_yahoo (always january) (py "   ") (py "1d")
    None None None false false 30 world0
  = (Raise (ValueError EmptyTicker), world0)
  /\ fst (Yahoo.fetch_tohlcv_yahoo (fun _ => None) (py "AAPL") (py "1d")
            None None None false false 30 world0)
     = Raise (RuntimeError (NoData (py "AAPL") (py "1d"))).
Proof.
  split.
  - exact (proj1 (fetch_raises (always january) (py "   ") (py "1d")
                    None None None false false 30 world0) eq_refl).
  - rewrite (proj2 (fetch_raises (fun _ => None) (py "AAPL") (py "1d")
                      None None None false false 30 world0) eq_refl
               (or_introl eq_refl)).
    reflexivity.
Defined.

(** ** C9 *)

Lemma sanitize_token_shape_witness :
  Io._sanitize_token (py "=-=") = py "NA".
Proof.
  apply (sanitize_token_shape (py "=-=")).
  intros c Hc. vm_compute in Hc.
  destruct Hc as [<-|[<-|[<-|[]]]]; reflexivity.
Defined.

(** ** C10 *)

Lemma save_df_by_extension_witness :
  fst (Io.save_df good (data ++ [py "bars.CSV"]) world0) = Ok tt
  /\ Pathlib.read (fs (snd (Io.save_df good (data ++ [py "bars.CSV"]) world0)))
       (data ++ [py "bars.CSV"])
     = Some (Pathlib.mkFile Pathlib.Csv (columns good)).
Proof.
  destruct (save_df_by_extension good (data ++ [py "bars.CSV"]) world0
              ltac:(vm_compute; reflexivity) ltac:(vm_compute; reflexivity))
    as [_ [H _]].
  destruct (H eq_refl) as [Hr [Hf _]]. split; [exact Hr | exact Hf].
Defined.

End Instances.

(** ** A few runs *)

Example sanitize_btc : Io._sanitize_token (py "BTC-USD") = py "BTC_USD".
Proof. reflexivity. Qed.

Example sanitize_caret : Io._sanitize_token (py " ^GSPC ") = py "GSPC".
Proof. reflexivity. Qed.

Example sanitize_fx : Io._sanitize_token (py "EURUSD=X") = py "EURUSD_X".
Proof. reflexivity. Qed.

Example sanitize_date : Io._sanitize_token (py "2025-01-01") = py "2025_01_01".
Proof. reflexivity. Qed.

Example validate_duplicate :
  fst (Validate.validate_tohlcv Sample.twice) = Raise (ValueError (DuplicateTimestamps 1)).
Proof. reflexivity. Qed.

Example validate_backwards :
  fst (Validate.validate_tohlcv Sample.backwards) = Raise (ValueError NotAscending).
Proof. reflexivity. Qed.

Example validate_no_volume :
  fst (Validate.validate_tohlcv Sample.no_volume)
  = Raise (ValueError (MissingColumns [py "volume"])).
Proof. reflexivity. Qed.

Example data_root_parts :
  Io.FIXED_DATA_ROOT
  = [py "C:"; py "Users"; py "axier"; py "Desktop"; py "CARPETA PROGRAMACION";
     py "quant_trading_system"; py "data"].
Proof. reflexivity. Qed.

Example next_day_leap :
  Calendar.add_days (Calendar.mkdate 2024 2 28) 1 = Ok (Calendar.mkdate 2024 2 29).
Proof. reflexivity. Qed.

Example next_day_new_year :
  Calendar.add_days (Calendar.mkdate 2023 12 31) 1 = Ok (Calendar.mkdate 2024 1 1).
Proof. reflexivity. Qed.

Example epoch_day : Calendar.date_of_ns 0 = Calendar.mkdate 1970 1 1.
Proof. reflexivity. Qed.

Example suffix_dotfile : Pathlib.suffix [py "data"; py ".parquet"] = [].
Proof. reflexivity. Qed.

Example suffix_upper : Py.lower (Pathlib.suffix [py "data"; py "x.tar.PARQUET"]) = py ".parquet".
Proof. reflexivity. Qed.
